(** * diabeti-check: the risk-assessment form of [src/pages/Index.tsx]

    A shallow embedding of the form controller: the eight-field
    [FormData], the handlers [handleInputChange], [handleSliderChange],
    [validateForm] and [handlePredict], the deferred callback handed to
    [setTimeout], the submit button with its [disabled] attribute, and
    what the render derives from the state: the label text and the slider
    value of each field and the result card.

    JavaScript values are modelled as the language defines them:
    - a number is an IEEE 754 binary64 value ([spec_float] at precision 53);
    - a string is a sequence of code units; the model covers code units
      below 256, one [ascii] each;
    - [Number(s)] is the StringToNumber conversion of ECMA-262 and
      [n.toString()] is Number::toString in radix 10. *)

From Stdlib Require Import ZArith Bool List String Ascii Lia.
From Stdlib Require Import Floats.SpecFloat Numbers.DecimalString.
From Stdlib Require Import Numbers.DecimalPos.
Import ListNotations.

Local Open Scope string_scope.
Local Open Scope Z_scope.

(* ===================================================================== *)
(** ** JavaScript numbers *)
(* ===================================================================== *)

Module JS.

Definition number := spec_float.

Definition prec : Z := 53.
Definition emax : Z := 1024.

Definition NaN : number := S754_nan.
Definition Infinity : number := S754_infinity false.

(** [isNaN(x)] on a value that already is a number. *)
Definition isNaN (x : number) : bool :=
  match x with
  | S754_nan => true
  | _ => false
  end.

(** [Number.isFinite(x)]. *)
Definition isFinite (x : number) : bool :=
  match x with
  | S754_zero _ | S754_finite _ _ _ => true
  | S754_infinity _ | S754_nan => false
  end.

(** [x > y] is [y < x]; any comparison with NaN is false. *)
Definition gt (x y : number) : bool := SFltb y x.

Definition number_eqb (x y : number) : bool :=
  match x, y with
  | S754_zero a, S754_zero b => Bool.eqb a b
  | S754_infinity a, S754_infinity b => Bool.eqb a b
  | S754_nan, S754_nan => true
  | S754_finite a m e, S754_finite b m' e' =>
      Bool.eqb a b && Pos.eqb m m' && Z.eqb e e'
  | _, _ => false
  end.

(** The number nearest to [(-1)^sign * m * 10^e10], ties to even: the value
    a decimal literal or a decimal string denotes. *)
Definition of_decimal (sign : bool) (m : Z) (e10 : Z) : number :=
  match m with
  | Zpos p =>
      match e10 with
      | Zneg k =>
          let '(q, e, l) :=
            SFdiv_core_binary prec emax (Zpos p) 0 (Z.pow_pos 10 k) 0 in
          binary_round_aux prec emax sign q e l
      | _ => binary_normalize prec emax
               (if sign then - (Zpos p * 10 ^ e10) else Zpos p * 10 ^ e10)
               0 sign
      end
  | _ => S754_zero sign
  end.

(** An integer literal such as [140]. *)
Definition of_Z (z : Z) : number := binary_normalize prec emax z 0 false.

(* --------------------------------------------------------------------- *)
(** *** Number(string): StringToNumber *)
(* --------------------------------------------------------------------- *)

Definition code (c : ascii) : Z := Z.of_N (N_of_ascii c).

(** StrWhiteSpaceChar among the code units below 256: TAB, LF, VT, FF, CR,
    SP and NBSP. *)
Definition isStrWhiteSpaceChar (c : ascii) : bool :=
  let n := code c in
  ((9 <=? n) && (n <=? 13)) || (n =? 32) || (n =? 160).

Definition isDecimalDigit (c : ascii) : bool :=
  (48 <=? code c) && (code c <=? 57).

(** Value of a digit in a radix up to 16; [None] when [c] is no digit of
    that radix. *)
Definition digitValue (radix : Z) (c : ascii) : option Z :=
  let n := code c in
  let v :=
    if (48 <=? n) && (n <=? 57) then n - 48
    else if (97 <=? n) && (n <=? 102) then n - 87
    else if (65 <=? n) && (n <=? 70) then n - 55
    else 16 in
  if v <? radix then Some v else None.

Fixpoint dropWhile (p : ascii -> bool) (l : list ascii) : list ascii :=
  match l with
  | c :: l' => if p c then dropWhile p l' else l
  | [] => []
  end.

Definition trim (l : list ascii) : list ascii :=
  rev (dropWhile isStrWhiteSpaceChar (rev (dropWhile isStrWhiteSpaceChar l))).

(** Reads the longest prefix of decimal digits: its value with [acc] as the
    digits read so far, how many digits were read, and the rest. *)
Fixpoint readDigits (l : list ascii) (acc : Z) (count : Z)
  : Z * Z * list ascii :=
  match l with
  | c :: l' =>
      if isDecimalDigit c then readDigits l' (10 * acc + (code c - 48)) (count + 1)
      else (acc, count, l)
  | [] => (acc, count, [])
  end.

(** All of [l] as digits of [radix]; [None] when a character is not one. *)
Fixpoint readRadix (radix : Z) (l : list ascii) (acc : Z) : option Z :=
  match l with
  | c :: l' =>
      match digitValue radix c with
      | Some v => readRadix radix l' (radix * acc + v)
      | None => None
      end
  | [] => Some acc
  end.

(** ExponentPart(opt) followed by the end of the string. *)
Definition readExponent (l : list ascii) : option Z :=
  match l with
  | [] => Some 0
  | c :: l' =>
      if (code c =? 101) || (code c =? 69) then
        let '(neg, l'') :=
          match l' with
          | s :: r => if code s =? 43 then (false, r)
                      else if code s =? 45 then (true, r)
                      else (false, l')
          | [] => (false, l')
          end in
        match readDigits l'' 0 0 with
        | (v, n, []) => if 0 <? n then Some (if neg then - v else v) else None
        | _ => None
        end
      else None
  end.

(** StrUnsignedDecimalLiteral other than [Infinity]:
    digits [.] digits(opt) exponent(opt), or [.] digits exponent(opt). *)
Definition readUnsignedDecimal (sign : bool) (l : list ascii) : number :=
  let '(ip, ni, l1) := readDigits l 0 0 in
  let '(m, nf, l2) :=
    match l1 with
    | c :: r => if code c =? 46 then readDigits r ip 0 else (ip, 0, l1)
    | [] => (ip, 0, l1)
    end in
  if 0 <? ni + nf then
    match readExponent l2 with
    | Some e => of_decimal sign m (e - nf)
    | None => NaN
    end
  else NaN.

Definition Infinity_chars : list ascii := list_ascii_of_string "Infinity".

Definition list_ascii_eqb (a b : list ascii) : bool :=
  String.eqb (string_of_list_ascii a) (string_of_list_ascii b).

Definition readStrUnsigned (sign : bool) (l : list ascii) : number :=
  if list_ascii_eqb l Infinity_chars then S754_infinity sign
  else readUnsignedDecimal sign l.

(** NonDecimalIntegerLiteral: [0x], [0o] or [0b] and at least one digit. *)
Definition readNonDecimal (l : list ascii) : option number :=
  match l with
  | z :: p :: ((_ :: _) as ds) =>
      if code z =? 48 then
        let radix :=
          if (code p =? 120) || (code p =? 88) then Some 16
          else if (code p =? 111) || (code p =? 79) then Some 8
          else if (code p =? 98) || (code p =? 66) then Some 2
          else None in
        match radix with
        | Some r =>
            match readRadix r ds 0 with
            | Some v => Some (of_Z v)
            | None => Some NaN
            end
        | None => None
        end
      else None
  | _ => None
  end.

(** [Number(s)] for a string [s]. *)
Definition Number (s : string) : number :=
  match trim (list_ascii_of_string s) with
  | [] => S754_zero false
  | (c :: r) as l =>
      match readNonDecimal l with
      | Some v => v
      | None =>
          if code c =? 43 then readStrUnsigned false r
          else if code c =? 45 then readStrUnsigned true r
          else readStrUnsigned false l
      end
  end.

(* --------------------------------------------------------------------- *)
(** *** n.toString(): Number::toString, radix 10 *)
(* --------------------------------------------------------------------- *)

Definition digitString (z : Z) : string :=
  NilZero.string_of_uint (N.to_uint (Z.to_N z)).

Definition digitCount (z : Z) : Z := Z.of_nat (String.length (digitString z)).

Fixpoint zeros (n : nat) : string :=
  match n with
  | O => ""
  | S n' => String "0" (zeros n')
  end.

(** For the positive value [v = m * 2^e], the integer [n] with
    [10^(n-1) <= v < 10^n]. *)
Definition decimalExponent (m : positive) (e : Z) : Z :=
  let num := Zpos m * 2 ^ Z.max e 0 in
  let den := 2 ^ Z.max (- e) 0 in
  digitCount (num * 10 ^ 400 / den) - 400.

(** The [k]-digit decimals [s * 10^(n-k)] on both sides of [v = m * 2^e]
    that convert back to [v], the one nearer to [v] if both do and the
    even one on a tie; [None] when neither converts back. The result is
    the pair [(s, n)]. *)
Definition shortestAt (m : positive) (e : Z) (k : Z) : option (Z * Z) :=
  let n := decimalExponent m e in
  let a := Zpos m * 2 ^ Z.max e 0 * 10 ^ Z.max (k - n) 0 in
  let b := 2 ^ Z.max (- e) 0 * 10 ^ Z.max (n - k) 0 in
  let lo := a / b in
  let r := a mod b in
  let back (c : Z * Z) :=
    number_eqb (of_decimal false (fst c) (snd c - k)) (S754_finite false m e) in
  let clo := (lo, n) in
  let chi := if lo + 1 =? 10 ^ k then (10 ^ (k - 1), n + 1) else (lo + 1, n) in
  if r =? 0 then (if back clo then Some clo else None)
  else
    match back clo, back chi with
    | true, true =>
        match 2 * r ?= b with
        | Lt => Some clo
        | Gt => Some chi
        | Eq => if Z.even lo then Some clo else Some chi
        end
    | true, false => Some clo
    | false, true => Some chi
    | false, false => None
    end.

(** The least number of digits [k] for which a decimal converts back,
    searched upwards from [k]; seventeen digits always suffice. *)
Fixpoint shortest (fuel : nat) (m : positive) (e : Z) (k : Z) : Z * Z * Z :=
  match shortestAt m e k with
  | Some (s, n) => (s, n, k)
  | None =>
      match fuel with
      | O => (Zpos m * 2 ^ Z.max e 0 * 10 ^ Z.max (k - decimalExponent m e) 0
                / (2 ^ Z.max (- e) 0 * 10 ^ Z.max (decimalExponent m e - k) 0),
              decimalExponent m e, k)
      | S fuel' => shortest fuel' m e (k + 1)
      end
  end.

Definition exponentString (n : Z) : string :=
  let e := n - 1 in
  let sign := if e <? 0 then "-" else "+" in
  ("e" ++ sign ++ digitString (Z.abs e))%string.

Definition formatDigits (s n k : Z) : string :=
  let ds := digitString s in
  if (k <=? n) && (n <=? 21) then
    (ds ++ zeros (Z.to_nat (n - k)))%string
  else if (0 <? n) && (n <=? 21) then
    (substring 0 (Z.to_nat n) ds ++ "." ++
     substring (Z.to_nat n) (Z.to_nat (k - n)) ds)%string
  else if (-6 <? n) && (n <=? 0) then
    ("0." ++ zeros (Z.to_nat (- n)) ++ ds)%string
  else if k =? 1 then
    (ds ++ exponentString n)%string
  else
    (substring 0 1 ds ++ "." ++ substring 1 (Z.to_nat (k - 1)) ds
     ++ exponentString n)%string.

Definition toString (x : number) : string :=
  match x with
  | S754_nan => "NaN"
  | S754_zero _ => "0"
  | S754_infinity s => if s then "-Infinity" else "Infinity"
  | S754_finite sg m e =>
      let '(s, n, k) := shortest 16 m e 1 in
      ((if sg then "-" else "") ++ formatDigits s n k)%string
  end.

End JS.

(* ===================================================================== *)
(** ** The form: data model *)
(* ===================================================================== *)

(** [keyof FormData]. *)
Inductive Key :=
| Kpregnancies | Kglucose | KbloodPressure | KskinThickness
| Kinsulin | Kbmi | KdiabetesPedigree | Kage.

(** The key as the string the source writes. *)
Definition keyString (k : Key) : string :=
  match k with
  | Kpregnancies => "pregnancies"
  | Kglucose => "glucose"
  | KbloodPressure => "bloodPressure"
  | KskinThickness => "skinThickness"
  | Kinsulin => "insulin"
  | Kbmi => "bmi"
  | KdiabetesPedigree => "diabetesPedigree"
  | Kage => "age"
  end.

Record FormData := {
  pregnancies : string;
  glucose : string;
  bloodPressure : string;
  skinThickness : string;
  insulin : string;
  bmi : string;
  diabetesPedigree : string;
  age : string
}.

(** [formData[field]]. *)
Definition get (fd : FormData) (field : Key) : string :=
  match field with
  | Kpregnancies => pregnancies fd
  | Kglucose => glucose fd
  | KbloodPressure => bloodPressure fd
  | KskinThickness => skinThickness fd
  | Kinsulin => insulin fd
  | Kbmi => bmi fd
  | KdiabetesPedigree => diabetesPedigree fd
  | Kage => age fd
  end.

(** [{ ...prev, [field]: value }]. *)
Definition set (prev : FormData) (field : Key) (value : string) : FormData :=
  {| pregnancies := match field with Kpregnancies => value | _ => pregnancies prev end;
     glucose := match field with Kglucose => value | _ => glucose prev end;
     bloodPressure := match field with KbloodPressure => value | _ => bloodPressure prev end;
     skinThickness := match field with KskinThickness => value | _ => skinThickness prev end;
     insulin := match field with Kinsulin => value | _ => insulin prev end;
     bmi := match field with Kbmi => value | _ => bmi prev end;
     diabetesPedigree := match field with KdiabetesPedigree => value | _ => diabetesPedigree prev end;
     age := match field with Kage => value | _ => age prev end |}.

Inductive Prediction := positive | negative.

(** [{ prediction: "positive" | "negative" | null; message: string }]. *)
Record Result := {
  prediction : option Prediction;
  message : string
}.

Record FieldRange := {
  min : JS.number;
  max : JS.number;
  step : JS.number
}.

Definition fieldRanges (field : Key) : FieldRange :=
  match field with
  | Kpregnancies => {| min := JS.of_Z 0; max := JS.of_Z 20; step := JS.of_Z 1 |}
  | Kglucose => {| min := JS.of_Z 0; max := JS.of_Z 300; step := JS.of_Z 1 |}
  | KbloodPressure => {| min := JS.of_Z 0; max := JS.of_Z 200; step := JS.of_Z 1 |}
  | KskinThickness => {| min := JS.of_Z 0; max := JS.of_Z 100; step := JS.of_Z 1 |}
  | Kinsulin => {| min := JS.of_Z 0; max := JS.of_Z 500; step := JS.of_Z 1 |}
  | Kbmi => {| min := JS.of_Z 10; max := JS.of_Z 60;
               step := JS.of_decimal false 1 (-1) |}
  | KdiabetesPedigree => {| min := JS.of_Z 0; max := JS.of_decimal false 25 (-1);
                            step := JS.of_decimal false 1 (-3) |}
  | Kage => {| min := JS.of_Z 1; max := JS.of_Z 120; step := JS.of_Z 1 |}
  end.

(** The argument of [toast(...)]. *)
Record Toast := {
  title : string;
  description : string;
  variant : string
}.

(** The three [useState] cells of the component. *)
Record Component := {
  formData : FormData;
  result : Result;
  isSubmitting : bool
}.

(** A pending [setTimeout]: when it is due, and the [formData] its callback
    closed over. The callback's code is [timeoutCallback] below. *)
Record Timer := {
  due : Z;
  captured : FormData
}.

(** The component together with what it acts on: the notifications shown
    so far (oldest first), the pending timers (earliest first) and the
    clock, in milliseconds. *)
Record World := {
  component : Component;
  toasts : list Toast;
  timers : list Timer;
  now : Z
}.

Definition initialFormData : FormData :=
  {| pregnancies := ""; glucose := ""; bloodPressure := ""; skinThickness := "";
     insulin := ""; bmi := ""; diabetesPedigree := ""; age := "" |}.

Definition noResult : Result := {| prediction := None; message := "" |}.

Definition initial : World :=
  {| component := {| formData := initialFormData; result := noResult;
                     isSubmitting := false |};
     toasts := []; timers := []; now := 0 |}.

(* ===================================================================== *)
(** ** State setters and collaborators *)
(* ===================================================================== *)

Definition setFormData (f : FormData -> FormData) (w : World) : World :=
  {| component := {| formData := f (formData (component w));
                     result := result (component w);
                     isSubmitting := isSubmitting (component w) |};
     toasts := toasts w; timers := timers w; now := now w |}.

Definition setResult (r : Result) (w : World) : World :=
  {| component := {| formData := formData (component w);
                     result := r;
                     isSubmitting := isSubmitting (component w) |};
     toasts := toasts w; timers := timers w; now := now w |}.

Definition setIsSubmitting (b : bool) (w : World) : World :=
  {| component := {| formData := formData (component w);
                     result := result (component w);
                     isSubmitting := b |};
     toasts := toasts w; timers := timers w; now := now w |}.

Definition toast (t : Toast) (w : World) : World :=
  {| component := component w; toasts := (toasts w ++ [t])%list;
     timers := timers w; now := now w |}.

(** [setTimeout(callback, delay)] with the callback closing over [fd]. *)
Definition setTimeout (fd : FormData) (delay : Z) (w : World) : World :=
  {| component := component w; toasts := toasts w;
     timers := (timers w ++ [{| due := now w + delay; captured := fd |}])%list;
     now := now w |}.

(* ===================================================================== *)
(** ** Handlers *)
(* ===================================================================== *)

Definition handleInputChange (field : Key) (value : string) (w : World) : World :=
  setFormData (fun prev => set prev field value) w.

(** [value[0].toString()] throws a [TypeError] on an empty array: [None]. *)
Definition handleSliderChange (field : Key) (value : list JS.number) (w : World)
  : option World :=
  match value with
  | v :: _ => Some (setFormData (fun prev => set prev field (JS.toString v)) w)
  | [] => None
  end.

Definition requiredFields : list Key :=
  [Kpregnancies; Kglucose; KbloodPressure; KskinThickness;
   Kinsulin; Kbmi; KdiabetesPedigree; Kage].

(** [!s] for a string [s]: only the empty string is falsy. *)
Definition falsy (s : string) : bool :=
  match s with
  | EmptyString => true
  | String _ _ => false
  end.

Definition isUpperCaseLetter (c : ascii) : bool :=
  (65 <=? JS.code c) && (JS.code c <=? 90).

(** [s.replace(/([A-Z])/g, " $1")]. *)
Fixpoint replaceCapitals (s : string) : string :=
  match s with
  | EmptyString => EmptyString
  | String c s' =>
      if isUpperCaseLetter c then String " " (String c (replaceCapitals s'))
      else String c (replaceCapitals s')
  end.

Definition toLowerCaseChar (c : ascii) : ascii :=
  let n := JS.code c in
  if ((65 <=? n) && (n <=? 90))
     || ((192 <=? n) && (n <=? 222) && negb (n =? 215))
  then ascii_of_N (Z.to_N (n + 32)) else c.

Fixpoint toLowerCase (s : string) : string :=
  match s with
  | EmptyString => EmptyString
  | String c s' => String (toLowerCaseChar c) (toLowerCase s')
  end.

Definition validationToast (field : Key) : Toast :=
  {| title := "Validation Error";
     description := ("Please enter a valid number for "
                     ++ toLowerCase (replaceCapitals (keyString field)))%string;
     variant := "destructive" |}.

(** The [for ... of] loop of [validateForm], with its early [return false]. *)
Fixpoint validateFields (fields : list Key) (w : World) : bool * World :=
  match fields with
  | [] => (true, w)
  | field :: rest =>
      let s := get (formData (component w)) field in
      if falsy s || JS.isNaN (JS.Number s) then
        (false, toast (validationToast field) w)
      else validateFields rest w
  end.

Definition validateForm (w : World) : bool * World :=
  validateFields requiredFields w.

Definition advisoryMessage : string :=
  "Based on your inputs, there may be an increased risk. Please consult a healthcare professional.".

Definition reassuringMessage : string :=
  "Based on your inputs, your risk appears to be lower. Continue maintaining a healthy lifestyle!".

Definition handlePredict (w : World) : World :=
  let '(ok, w1) := validateForm w in
  if negb ok then w1
  else
    let w2 := setIsSubmitting true w1 in
    let w3 := setResult {| prediction := None; message := "" |} w2 in
    setTimeout (formData (component w)) 1500 w3.

(** The body of the arrow function given to [setTimeout]; [fd] is the
    [formData] of the render whose [handlePredict] scheduled it. *)
Definition timeoutCallback (fd : FormData) (w : World) : World :=
  let glucose := JS.Number (glucose fd) in
  let bmi := JS.Number (bmi fd) in
  let w1 :=
    if JS.gt glucose (JS.of_Z 140) || JS.gt bmi (JS.of_Z 30) then
      setResult {| prediction := Some positive; message := advisoryMessage |} w
    else
      setResult {| prediction := Some negative; message := reassuringMessage |} w in
  setIsSubmitting false w1.

(** [<Button onClick={handlePredict} disabled={isSubmitting}>]: a disabled
    button delivers no click. *)
Definition Button_onClick (w : World) : World :=
  if isSubmitting (component w) then w else handlePredict w.

(* ===================================================================== *)
(** ** The event loop *)
(* ===================================================================== *)

(** What can happen to the page: a text input reports its new value (any
    string, as far as the handler is concerned), a slider reports its
    array of values, the submit button is clicked, [ms] milliseconds pass,
    the earliest pending timer fires. *)
Inductive Event :=
| InputChange (field : Key) (value : string)
| SliderChange (field : Key) (value : list JS.number)
| Click
| Elapse (ms : Z)
| Timeout.

Definition advance (ms : Z) (w : World) : World :=
  {| component := component w; toasts := toasts w; timers := timers w;
     now := now w + ms |}.

Definition dropTimer (w : World) : World :=
  {| component := component w; toasts := toasts w; timers := tl (timers w);
     now := now w |}.

(** One turn of the event loop; [None] when the event cannot happen: a
    timer that is not due, time running backwards, a slider reporting no
    value. *)
Definition run (w : World) (ev : Event) : option World :=
  match ev with
  | InputChange field value => Some (handleInputChange field value w)
  | SliderChange field value => handleSliderChange field value w
  | Click => Some (Button_onClick w)
  | Elapse ms => if 0 <=? ms then Some (advance ms w) else None
  | Timeout =>
      match timers w with
      | t :: _ =>
          if due t <=? now w then Some (timeoutCallback (captured t) (dropTimer w))
          else None
      | [] => None
      end
  end.

Fixpoint runAll (w : World) (evs : list Event) : option World :=
  match evs with
  | [] => Some w
  | ev :: evs' =>
      match run w ev with
      | Some w' => runAll w' evs'
      | None => None
      end
  end.

Inductive reachable : World -> Prop :=
| reachable_initial : reachable initial
| reachable_run w ev w' : reachable w -> run w ev = Some w' -> reachable w'.

(* ===================================================================== *)
(** ** Vocabulary of the statements *)
(* ===================================================================== *)

(** A field string that the validation loop lets through: not empty, and
    [Number] of it is not NaN. *)
Definition numeric (s : string) : Prop :=
  s <> "" /\ JS.isNaN (JS.Number s) = false.

Definition allNumeric (fd : FormData) : Prop :=
  forall k, numeric (get fd k).

(** The field names as a reader expects them in the notification. *)
Definition humanName (k : Key) : string :=
  match k with
  | Kpregnancies => "pregnancies"
  | Kglucose => "glucose"
  | KbloodPressure => "blood pressure"
  | KskinThickness => "skin thickness"
  | Kinsulin => "insulin"
  | Kbmi => "bmi"
  | KdiabetesPedigree => "diabetes pedigree"
  | Kage => "age"
  end.

(** Position of a key in the order [validateForm] examines the fields. *)
Definition position (k : Key) : nat :=
  match k with
  | Kpregnancies => 0
  | Kglucose => 1
  | KbloodPressure => 2
  | KskinThickness => 3
  | Kinsulin => 4
  | Kbmi => 5
  | KdiabetesPedigree => 6
  | Kage => 7
  end.

(** Whether a number lies within the slider range of a field. *)
Definition inRange (k : Key) (x : JS.number) : bool :=
  SFleb (min (fieldRanges k)) x && SFleb x (max (fieldRanges k)).

Definition positiveResult : Result :=
  {| prediction := Some positive; message := advisoryMessage |}.

Definition negativeResult : Result :=
  {| prediction := Some negative; message := reassuringMessage |}.

(** No submission is under way. *)
Definition idle (w : World) : Prop :=
  isSubmitting (component w) = false /\ timers w = [].

(** A submission is under way and [t] is its timer. *)
Definition pending (t : Timer) (w : World) : Prop :=
  isSubmitting (component w) = true
  /\ timers w = [t]
  /\ result (component w) = noResult.

(** What every world the event loop can reach satisfies. *)
Definition consistent (w : World) : Prop :=
  (result (component w) = noResult
   \/ result (component w) = positiveResult
   \/ result (component w) = negativeResult)
  /\ (idle w
      \/ exists t, pending t w
                   /\ allNumeric (captured t)
                   /\ due t <= now w + 1500).

(** A form with every field filled in; [g] and [b] are glucose and bmi. *)
Definition sample (g b : string) : FormData :=
  {| pregnancies := "2"; glucose := g; bloodPressure := "70";
     skinThickness := "20"; insulin := "80"; bmi := b;
     diabetesPedigree := "0.5"; age := "33" |}.

(** Another filled-in form, differing from [sample] in the six fields
    other than glucose and bmi. *)
Definition otherSample (g b : string) : FormData :=
  {| pregnancies := "0"; glucose := g; bloodPressure := "120";
     skinThickness := "35.5"; insulin := "1e2"; bmi := b;
     diabetesPedigree := " 2.25"; age := "61" |}.

(** The idle world showing the form [fd]. *)
Definition showing (fd : FormData) : World :=
  {| component := {| formData := fd; result := noResult; isSubmitting := false |};
     toasts := []; timers := []; now := 0 |}.

(** Typing a whole form into the text inputs, field by field. *)
Definition typeIn (fd : FormData) : list Event :=
  map (fun k => InputChange k (get fd k)) requiredFields.

(* ===================================================================== *)
(** ** What the component renders *)
(* ===================================================================== *)

(** ToBoolean of a number: [NaN], [0] and [-0] are falsy. *)
Definition truthyNumber (x : JS.number) : bool :=
  match x with
  | S754_nan | S754_zero _ => false
  | S754_infinity _ | S754_finite _ _ _ => true
  end.

(** [x || 0] for a number [x]. *)
Definition orZero (x : JS.number) : JS.number :=
  if truthyNumber x then x else JS.of_Z 0.

(** The text beside a field's label: [formData.field || "0"], with
    ["0.000"] for diabetesPedigree. *)
Definition labelText (field : Key) (fd : FormData) : string :=
  if falsy (get fd field) then
    match field with
    | KdiabetesPedigree => "0.000"
    | _ => "0"
    end
  else get fd field.

(** The [value] prop of a field's slider: [[Number(formData.field) || 0]]. *)
Definition sliderValue (field : Key) (fd : FormData) : list JS.number :=
  [orZero (JS.Number (get fd field))].

Inductive Icon := AlertCircle | CheckCircle2.

(** The result card, as far as it depends on the state: the part of the
    card's and of the heading's [className] chosen by the prediction, the
    icon, and the paragraph with the message. The fixed classes and the
    heading's own text are left out. *)
Record ResultCard := {
  cardClass : string;
  icon : Icon;
  headingClass : string;
  paragraph : string
}.

(** [{result.prediction && (<Card ...>)}]. *)
Definition resultCard (r : Result) : option ResultCard :=
  match prediction r with
  | None => None
  | Some positive =>
      Some {| cardClass := "border-warning bg-warning/5"; icon := AlertCircle;
              headingClass := "text-warning"; paragraph := message r |}
  | Some negative =>
      Some {| cardClass := "border-success bg-success/5"; icon := CheckCircle2;
              headingClass := "text-success"; paragraph := message r |}
  end.

(** The submit button shows the spinner and is disabled together. *)
Definition Button_disabled (w : World) : bool := isSubmitting (component w).

(* ===================================================================== *)
(** ** Vocabulary of the further properties *)
(* ===================================================================== *)

(** A string made of white space only. *)
Definition blank (s : string) : Prop :=
  Forall (fun c => JS.isStrWhiteSpaceChar c = true) (list_ascii_of_string s).

(** The positions of a slider, counted in steps from its minimum: the
    number of decimals of the step, the minimum in units of the step, and
    the number of steps up to the maximum. *)
Definition decimals (field : Key) : Z :=
  match field with
  | Kbmi => 1
  | KdiabetesPedigree => 3
  | _ => 0
  end.

Definition minUnits (field : Key) : Z :=
  match field with
  | Kbmi => 100
  | Kage => 1
  | _ => 0
  end.

Definition gridSize (field : Key) : Z :=
  match field with
  | Kpregnancies => 20
  | Kglucose => 300
  | KbloodPressure => 200
  | KskinThickness => 100
  | Kinsulin => 500
  | Kbmi => 500
  | KdiabetesPedigree => 2500
  | Kage => 119
  end.

(** The number nearest to the decimal [min + i * step]. *)
Definition gridPoint (field : Key) (i : Z) : JS.number :=
  JS.of_decimal false (minUnits field + i) (- decimals field).

Definition upto (n : Z) : list Z := map Z.of_nat (seq 0 (S (Z.to_nat n))).

(** Whether [10^(n-1) <= m * 2^e < 10^n], in integers, for [n] not
    below -399. *)
Definition exponentCheck (m : BinNums.positive) (e : Z) (n : Z) : bool :=
  let num := Zpos m * 2 ^ Z.max e 0 in
  let den := 2 ^ Z.max (- e) 0 in
  (-399 <=? n)
  && (10 ^ Z.max (n - 1) 0 * den <=? num * 10 ^ Z.max (1 - n) 0)
  && (num * 10 ^ Z.max (- n) 0 <? 10 ^ Z.max n 0 * den).

(** [JS.shortestAt], [JS.shortest] and [JS.toString] with the decimal
    exponent handed in instead of computed. *)
Definition shortestAtWith (n : Z) (m : BinNums.positive) (e : Z) (k : Z)
  : option (Z * Z) :=
  let a := Zpos m * 2 ^ Z.max e 0 * 10 ^ Z.max (k - n) 0 in
  let b := 2 ^ Z.max (- e) 0 * 10 ^ Z.max (n - k) 0 in
  let lo := a / b in
  let r := a mod b in
  let back (c : Z * Z) :=
    JS.number_eqb (JS.of_decimal false (fst c) (snd c - k))
                  (S754_finite false m e) in
  let clo := (lo, n) in
  let chi := if lo + 1 =? 10 ^ k then (10 ^ (k - 1), n + 1) else (lo + 1, n) in
  if r =? 0 then (if back clo then Some clo else None)
  else
    match back clo, back chi with
    | true, true =>
        match 2 * r ?= b with
        | Lt => Some clo
        | Gt => Some chi
        | Eq => if Z.even lo then Some clo else Some chi
        end
    | true, false => Some clo
    | false, true => Some chi
    | false, false => None
    end.

Fixpoint shortestWith (n : Z) (fuel : nat) (m : BinNums.positive) (e : Z) (k : Z)
  : Z * Z * Z :=
  match shortestAtWith n m e k with
  | Some (s, n') => (s, n', k)
  | None =>
      match fuel with
      | O => (Zpos m * 2 ^ Z.max e 0 * 10 ^ Z.max (k - n) 0
                / (2 ^ Z.max (- e) 0 * 10 ^ Z.max (n - k) 0),
              n, k)
      | S fuel' => shortestWith n fuel' m e (k + 1)
      end
  end.

Definition exponentCandidates : list Z :=
  [1; 2; 3; 0; -1; -2; 4; -3; 5; -4; 6; -5; 7; -6; 8; 9; 10].

(** [JS.toString], by way of [exponentCheck]; [None] when no candidate
    exponent fits. *)
Definition toStringFast (x : JS.number) : option string :=
  match x with
  | S754_finite sg m e =>
      match find (exponentCheck m e) exponentCandidates with
      | Some n =>
          let '(s, n', k) := shortestWith n 16 m e 1 in
          Some ((if sg then "-" else "") ++ JS.formatDigits s n' k)%string
      | None => None
      end
  | _ => Some (JS.toString x)
  end.

(** What is checked, by evaluation, at each position of each slider. *)
Definition gridCheck (field : Key) (i : Z) : bool :=
  let v := gridPoint field i in
  match toStringFast v with
  | Some s =>
      JS.number_eqb (JS.Number s) v
      && JS.number_eqb (orZero v) v
      && negb (falsy s)
      && negb (JS.isNaN v)
      && inRange field v
  | None => false
  end.

Definition glucoseCheck (i : Z) : bool :=
  Bool.eqb (JS.gt (gridPoint Kglucose i) (JS.of_Z 140)) (140 <? i).

Definition bmiCheck (j : Z) : bool :=
  Bool.eqb (JS.gt (gridPoint Kbmi j) (JS.of_Z 30)) (200 <? j).

(** The value of the digits of a [Decimal.uint] after the digits [acc]. *)
Fixpoint uintAcc (d : Decimal.uint) (acc : Z) : Z :=
  match d with
  | Decimal.Nil => acc
  | Decimal.D0 d' => uintAcc d' (10 * acc)
  | Decimal.D1 d' => uintAcc d' (10 * acc + 1)
  | Decimal.D2 d' => uintAcc d' (10 * acc + 2)
  | Decimal.D3 d' => uintAcc d' (10 * acc + 3)
  | Decimal.D4 d' => uintAcc d' (10 * acc + 4)
  | Decimal.D5 d' => uintAcc d' (10 * acc + 5)
  | Decimal.D6 d' => uintAcc d' (10 * acc + 6)
  | Decimal.D7 d' => uintAcc d' (10 * acc + 7)
  | Decimal.D8 d' => uintAcc d' (10 * acc + 8)
  | Decimal.D9 d' => uintAcc d' (10 * acc + 9)
  end.

Definition allDigits (l : list ascii) : Prop :=
  Forall (fun c => JS.isDecimalDigit c = true) l.

(** A list that does not go on with a digit. *)
Definition stops (l : list ascii) : Prop :=
  match l with
  | [] => True
  | c :: _ => JS.isDecimalDigit c = false
  end.

(** The characters [Number::toString] writes for a finite number: digits,
    the point, [e] and the two signs. *)
Definition numeralChar (c : ascii) : bool :=
  JS.isDecimalDigit c
  || (JS.code c =? 46) || (JS.code c =? 101)
  || (JS.code c =? 43) || (JS.code c =? 45).

(** What follows the integer part of a written numeral: a fraction or
    nothing, then an exponent or nothing. *)
Definition writtenTail (l : list ascii) : Prop :=
  exists F E,
    l = (F ++ E)%list
    /\ (F = [] \/ exists D, F = "."%char :: D /\ allDigits D)
    /\ (E = []
        \/ exists sg D, E = "e"%char :: sg :: D
                        /\ (sg = "+"%char \/ sg = "-"%char)
                        /\ allDigits D /\ D <> []).

(** A character that no numeric string contains: neither a letter nor a
    digit, nor the point, a sign or white space. The comma, the percent
    sign and the slash are such characters. *)
Definition punctuation (c : ascii) : bool :=
  let n := JS.code c in
  negb (((48 <=? n) && (n <=? 57))
        || ((65 <=? n) && (n <=? 90))
        || ((97 <=? n) && (n <=? 122))
        || (n =? 46) || (n =? 43) || (n =? 45)
        || JS.isStrWhiteSpaceChar c).

(* --------------------------------------------------------------------- *)
(** *** The controls of the page *)
(* --------------------------------------------------------------------- *)

(** A valid floating-point number of HTML: an optional [-], then digits,
    or digits(opt) [.] digits, then an optional exponent [e] or [E] with an
    optional sign and digits. *)
Definition validFloatingPointNumber (s : string) : bool :=
  let l := list_ascii_of_string s in
  let unsigned :=
    match l with
    | c :: r => if JS.code c =? 45 then r else l
    | [] => l
    end in
  let '(_, ni, l1) := JS.readDigits unsigned 0 0 in
  let '(ok, l2) :=
    match l1 with
    | c :: r =>
        if JS.code c =? 46 then
          let '(_, nf, rest) := JS.readDigits r 0 0 in (0 <? nf, rest)
        else (0 <? ni, l1)
    | [] => (0 <? ni, l1)
    end in
  ok && match JS.readExponent l2 with
        | Some _ => true
        | None => false
        end.

(** The eight text fields are [<Input type="number">]. In the number
    state the element sanitizes its value: [e.target.value] is the text in
    the box when that is a valid floating-point number with a finite value
    and the empty string otherwise. *)
Definition numberInputValue (typed : string) : string :=
  if validFloatingPointNumber typed && JS.isFinite (JS.Number typed)
  then typed else "".

(** What the user does to the page: leaves [text] in the box of a field,
    drags a field's slider to its position [i], clicks the button; and
    time passing and the timer firing. *)
Inductive PageEvent :=
| Typed (field : Key) (text : string)
| Dragged (field : Key) (i : Z)
| Clicked
| Elapsed (ms : Z)
| TimerFired.

(** The event the component receives; a slider has no position outside
    its range. *)
Definition deliver (pev : PageEvent) : option Event :=
  match pev with
  | Typed field text => Some (InputChange field (numberInputValue text))
  | Dragged field i =>
      if (0 <=? i) && (i <=? gridSize field)
      then Some (SliderChange field [gridPoint field i]) else None
  | Clicked => Some Click
  | Elapsed ms => Some (Elapse ms)
  | TimerFired => Some Timeout
  end.

Definition runPageEvent (w : World) (pev : PageEvent) : option World :=
  match deliver pev with
  | Some ev => run w ev
  | None => None
  end.


(** The worlds the page can be brought to through its controls. *)
Inductive pageReachable : World -> Prop :=
| pageReachable_initial : pageReachable initial
| pageReachable_step w pev w' :
    pageReachable w -> runPageEvent w pev = Some w' -> pageReachable w'.



(** Events that edit the form. *)
Definition isEdit (ev : Event) : bool :=
  match ev with
  | InputChange _ _ | SliderChange _ _ => true
  | _ => false
  end.

(* ===================================================================== *)
(** ** The JavaScript model at sample inputs *)
(* ===================================================================== *)

Example Number_integer : JS.Number "140" = JS.of_Z 140.
Proof. vm_compute. reflexivity. Qed.

Example Number_fraction :
  JS.Number "26.5" = S754_finite false 7459086882832384 (-48).
Proof. vm_compute. reflexivity. Qed.

(** 0.1 is 0x1.999999999999ap-4. *)
Example Number_tenth :
  JS.Number "0.1" = S754_finite false 7205759403792794 (-56).
Proof. vm_compute. reflexivity. Qed.

Example Number_exponent : JS.Number "1.5e2" = JS.of_Z 150.
Proof. vm_compute. reflexivity. Qed.

Example Number_surrounding_space : JS.Number "  42 " = JS.of_Z 42.
Proof. vm_compute. reflexivity. Qed.

(** A string of white space only is the number 0. *)
Example Number_blank : JS.Number " " = S754_zero false.
Proof. vm_compute. reflexivity. Qed.

Example Number_hexadecimal : JS.Number "0x1F" = JS.of_Z 31.
Proof. vm_compute. reflexivity. Qed.

Example Number_trailing_letter : JS.Number "12a" = JS.NaN.
Proof. vm_compute. reflexivity. Qed.

Example Number_lone_point : JS.Number "." = JS.NaN.
Proof. vm_compute. reflexivity. Qed.

Example Number_signed_hexadecimal : JS.Number "-0x10" = JS.NaN.
Proof. vm_compute. reflexivity. Qed.

Example Number_Infinity : JS.Number "-Infinity" = S754_infinity true.
Proof. vm_compute. reflexivity. Qed.

Example Number_overflow : JS.Number "1e999" = JS.Infinity.
Proof. vm_compute. reflexivity. Qed.

(** 2^53 + 1 lies half way between two numbers and goes to the even one. *)
Example Number_tie_to_even :
  JS.Number "9007199254740993" = JS.of_Z 9007199254740992.
Proof. vm_compute. reflexivity. Qed.

(** The least positive number, and a string below half of it. *)
Example Number_subnormal :
  JS.Number "5e-324" = S754_finite false 1 (-1074)
  /\ JS.Number "2e-324" = S754_zero false.
Proof. split; vm_compute; reflexivity. Qed.

(** A string barely above 140 denotes the number 140 itself. *)
Example Number_rounds_to_140 :
  JS.Number "140.00000000000000001" = JS.of_Z 140
  /\ JS.gt (JS.Number "140.00000000000000001") (JS.of_Z 140) = false
  /\ JS.gt (JS.Number "140.00000000000003") (JS.of_Z 140) = true.
Proof. repeat split; vm_compute; reflexivity. Qed.

Example description_samples :
  map (fun k => description (validationToast k)) requiredFields
  = ["Please enter a valid number for pregnancies";
     "Please enter a valid number for glucose";
     "Please enter a valid number for blood pressure";
     "Please enter a valid number for skin thickness";
     "Please enter a valid number for insulin";
     "Please enter a valid number for bmi";
     "Please enter a valid number for diabetes pedigree";
     "Please enter a valid number for age"].
Proof. vm_compute. reflexivity. Qed.

(* ===================================================================== *)
(** ** Validation *)
(* ===================================================================== *)

Section Validation.

Variable w : World.

Let fd := formData (component w).

Lemma falsy_empty (s : string) : falsy s = true <-> s = "".
Proof. destruct s; simpl; split; congruence. Qed.

Lemma rejected_iff (s : string) :
  falsy s || JS.isNaN (JS.Number s) = true
  <-> s = "" \/ JS.isNaN (JS.Number s) = true.
Proof. rewrite orb_true_iff, falsy_empty. tauto. Qed.

Lemma accepted_iff (s : string) :
  falsy s || JS.isNaN (JS.Number s) = false <-> numeric s.
Proof.
  unfold numeric. rewrite orb_false_iff. split.
  - intros [Hf Hn]. split; [|exact Hn].
    intros ->. discriminate.
  - intros [Hne Hn]. split; [|exact Hn].
    destruct s; [congruence | reflexivity].
Qed.

Lemma validateFields_pass (fields : list Key) :
  Forall (fun k => numeric (get fd k)) fields ->
  validateFields fields w = (true, w).
Proof.
  induction 1 as [|k rest Hk _ IH]; simpl; [reflexivity|].
  apply accepted_iff in Hk. fold fd. rewrite Hk. exact IH.
Qed.

Lemma validateFields_stop (pre post : list Key) (k : Key) :
  Forall (fun k' => numeric (get fd k')) pre ->
  get fd k = "" \/ JS.isNaN (JS.Number (get fd k)) = true ->
  validateFields (pre ++ k :: post) w = (false, toast (validationToast k) w).
Proof.
  intros Hpre Hk. induction Hpre as [|k' rest Hk' _ IH]; simpl; fold fd.
  - apply rejected_iff in Hk. rewrite Hk. reflexivity.
  - apply accepted_iff in Hk'. rewrite Hk'. exact IH.
Qed.

Lemma validateFields_cases (fields : list Key) :
  (Forall (fun k => numeric (get fd k)) fields
   /\ validateFields fields w = (true, w))
  \/ (exists pre k post,
        fields = (pre ++ k :: post)%list
        /\ Forall (fun k' => numeric (get fd k')) pre
        /\ (get fd k = "" \/ JS.isNaN (JS.Number (get fd k)) = true)
        /\ validateFields fields w = (false, toast (validationToast k) w)).
Proof.
  induction fields as [|k rest IH].
  - left. split; [constructor | reflexivity].
  - destruct (falsy (get fd k) || JS.isNaN (JS.Number (get fd k))) eqn:Hk.
    + right. exists [], k, rest. apply rejected_iff in Hk.
      repeat split; auto. apply (validateFields_stop [] rest k); auto.
    + apply accepted_iff in Hk.
      destruct IH as [[Hall Hrun] | (pre & k' & post & -> & Hpre & Hbad & Hrun)].
      * left. split; [constructor; assumption|].
        apply validateFields_pass. constructor; assumption.
      * right. exists (k :: pre), k', post. repeat split; auto.
        apply (validateFields_stop (k :: pre) post k'); auto.
Qed.

End Validation.

Lemma requiredFields_complete (k : Key) : In k requiredFields.
Proof. destruct k; simpl; tauto. Qed.

Lemma allNumeric_required (fd : FormData) :
  allNumeric fd <-> Forall (fun k => numeric (get fd k)) requiredFields.
Proof.
  rewrite Forall_forall. split.
  - intros H k _. apply H.
  - intros H k. apply H, requiredFields_complete.
Qed.

Lemma validateForm_true (w : World) :
  fst (validateForm w) = true <-> allNumeric (formData (component w)).
Proof.
  unfold validateForm. rewrite allNumeric_required.
  destruct (validateFields_cases w requiredFields)
    as [[Hall Hrun] | (pre & k & post & Heq & Hpre & Hbad & Hrun)].
  - rewrite Hrun. simpl. tauto.
  - rewrite Hrun. simpl. split; [discriminate|].
    intros Hall. rewrite Heq in Hall. apply Forall_app in Hall as [_ Hall].
    inversion Hall as [|? ? [Hne Hnan] _]; subst.
    destruct Hbad; congruence.
Qed.

Lemma validateForm_pass (w : World) :
  allNumeric (formData (component w)) -> validateForm w = (true, w).
Proof.
  intros H. apply validateFields_pass, allNumeric_required, H.
Qed.

Lemma validateForm_false (w : World) :
  fst (validateForm w) = false ->
  exists k, validateForm w = (false, toast (validationToast k) w).
Proof.
  unfold validateForm.
  destruct (validateFields_cases w requiredFields)
    as [[_ Hrun] | (pre & k & post & _ & _ & _ & Hrun)];
    rewrite Hrun; simpl; [discriminate|].
  intros _. exists k. reflexivity.
Qed.

Lemma description_humanName (k : Key) :
  description (validationToast k)
  = ("Please enter a valid number for " ++ humanName k)%string.
Proof. destruct k; reflexivity. Qed.

(* ===================================================================== *)
(** ** Claims about validation *)
(* ===================================================================== *)

(** C3. [validateForm] examines the eight fields in the order pregnancies,
    glucose, bloodPressure, skinThickness, insulin, bmi, diabetesPedigree,
    age. It fails exactly when some field is empty or [Number] of its
    string is NaN. When it fails, the fields before the first failing one
    are all numeric, exactly one notification is raised, its description
    ends in the de-camel-cased name of that field, and the outcome is the
    same for every form that agrees with this one up to and including that
    field: the fields after it are not looked at. When it succeeds nothing
    is raised. *)
Theorem validateForm_first_failure (w : World) :
  requiredFields
  = [Kpregnancies; Kglucose; KbloodPressure; KskinThickness;
     Kinsulin; Kbmi; KdiabetesPedigree; Kage]
  /\ (fst (validateForm w) = false
      <-> exists k, get (formData (component w)) k = ""
                    \/ JS.isNaN (JS.Number (get (formData (component w)) k)) = true)
  /\ (fst (validateForm w) = true -> snd (validateForm w) = w)
  /\ (fst (validateForm w) = false ->
      exists pre k post,
        requiredFields = (pre ++ k :: post)%list
        /\ (forall k', In k' pre -> numeric (get (formData (component w)) k'))
        /\ (get (formData (component w)) k = ""
            \/ JS.isNaN (JS.Number (get (formData (component w)) k)) = true)
        /\ component (snd (validateForm w)) = component w
        /\ toasts (snd (validateForm w)) = (toasts w ++ [validationToast k])%list
        /\ description (validationToast k)
           = ("Please enter a valid number for " ++ humanName k)%string
        /\ (forall w',
              (forall k', In k' (pre ++ [k]) ->
                 get (formData (component w')) k' = get (formData (component w)) k') ->
              validateForm w' = (false, toast (validationToast k) w'))).
Proof.
  split; [reflexivity|].
  split; [|split].
  - split.
    + intros Hf.
      destruct (validateFields_cases w requiredFields)
        as [[_ Hrun] | (pre & k & post & _ & _ & Hbad & _)].
      * unfold validateForm in Hf. rewrite Hrun in Hf. discriminate.
      * exists k. exact Hbad.
    + intros [k Hbad].
      destruct (fst (validateForm w)) eqn:Hv; [|reflexivity].
      apply validateForm_true in Hv. destruct (Hv k) as [Hne Hnan].
      destruct Hbad; congruence.
  - intros Hv. apply validateForm_true in Hv.
    rewrite (validateForm_pass w Hv). reflexivity.
  - intros Hf. unfold validateForm in *.
    destruct (validateFields_cases w requiredFields)
      as [[_ Hrun] | (pre & k & post & Heq & Hpre & Hbad & Hrun)].
    + rewrite Hrun in Hf. discriminate.
    + exists pre, k, post. rewrite Hrun. simpl.
      split; [exact Heq|].
      split; [rewrite Forall_forall in Hpre; exact Hpre|].
      split; [exact Hbad|].
      split; [reflexivity|].
      split; [reflexivity|].
      split; [apply description_humanName|].
      intros w' Hagree.
      change (validateFields requiredFields w'
              = (false, toast (validationToast k) w')).
      rewrite Heq. apply validateFields_stop.
      * rewrite Forall_forall in *. intros k' Hin.
        rewrite Hagree by (apply in_or_app; left; exact Hin).
        apply Hpre, Hin.
      * rewrite Hagree by (apply in_or_app; right; simpl; tauto).
        exact Hbad.
Qed.

(** On any form, whether the page can show it or not: when validation
    succeeds every field is non-empty and [Number] of it is not NaN. *)
Theorem validateForm_success_not_NaN (w : World) :
  fst (validateForm w) = true ->
  forall k,
    get (formData (component w)) k <> ""
    /\ JS.isNaN (JS.Number (get (formData (component w)) k)) = false.
Proof.
  intros Hv k. apply validateForm_true in Hv. exact (Hv k).
Qed.

(** C8. Whenever all eight fields are numeric, validation succeeds and
    raises nothing, whatever the slider ranges are: [fieldRanges] takes no
    part in it. *)
Theorem validateForm_ignores_fieldRanges (w : World) :
  allNumeric (formData (component w)) ->
  validateForm w = (true, w)
  /\ isSubmitting (component (handlePredict w)) = true
  /\ toasts (handlePredict w) = toasts w.
Proof.
  intros Hall. pose proof (validateForm_pass w Hall) as Hv.
  split; [exact Hv|].
  unfold handlePredict. rewrite Hv. simpl. split; reflexivity.
Qed.

(** Closes [validateFields requiredFields w = ...] once the [n] fields
    before the failing one are known to pass; [Hstop] is the loop's
    behaviour at a split of [requiredFields]. *)
Ltac stop_after Hstop n :=
  rewrite (Hstop (firstn n requiredFields) (skipn (S n) requiredFields));
  [ reflexivity
  | reflexivity
  | let k := fresh "k" in
    let H := fresh "H" in
    simpl; intros k H;
    repeat (destruct H as [<- | H]; [simpl; lia|]);
    tauto ].

(** C4. Submitting with a field empty fails validation: one notification
    is raised and the component state ([formData], [result],
    [isSubmitting]), the timers and the clock are as before, so a result
    that was [{null, ""}] stays so. The notification names that field when
    the fields examined before it are numeric, in particular when it is
    the only empty one. More generally every failed validation leaves the
    component state and the timers unchanged. *)
Theorem failed_validation_changes_nothing (w : World) :
  (forall field,
     get (formData (component w)) field = "" ->
     fst (validateForm w) = false
     /\ ((forall k, (position k < position field)%nat ->
                    numeric (get (formData (component w)) k)) ->
         handlePredict w = toast (validationToast field) w)
     /\ (result (component w) = noResult ->
         result (component (handlePredict w)) = noResult))
  /\ (fst (validateForm w) = false ->
      component (handlePredict w) = component w
      /\ timers (handlePredict w) = timers w
      /\ now (handlePredict w) = now w
      /\ exists k, toasts (handlePredict w) = (toasts w ++ [validationToast k])%list).
Proof.
  assert (Hgen : fst (validateForm w) = false ->
                 exists k, handlePredict w = toast (validationToast k) w).
  { intros Hf. destruct (validateForm_false w Hf) as [k Hk].
    exists k. unfold handlePredict. rewrite Hk. reflexivity. }
  split.
  - intros field Hempty.
    assert (Hf : fst (validateForm w) = false).
    { destruct (fst (validateForm w)) eqn:Hv; [|reflexivity].
      apply validateForm_true in Hv. destruct (Hv field) as [Hne _].
      congruence. }
    split; [exact Hf|]. split.
    + intros Hbefore. unfold handlePredict, validateForm.
      assert (Hstop : forall pre post,
                requiredFields = (pre ++ field :: post)%list ->
                (forall k, In k pre -> (position k < position field)%nat) ->
                validateFields requiredFields w
                = (false, toast (validationToast field) w)).
      { intros pre post Heq Hpos. rewrite Heq. apply validateFields_stop.
        - rewrite Forall_forall. intros k Hin. apply Hbefore, Hpos, Hin.
        - left. exact Hempty. }
      destruct field;
        [ stop_after Hstop 0%nat | stop_after Hstop 1%nat
        | stop_after Hstop 2%nat | stop_after Hstop 3%nat
        | stop_after Hstop 4%nat | stop_after Hstop 5%nat
        | stop_after Hstop 6%nat | stop_after Hstop 7%nat ].
    + intros Hres. destruct (Hgen Hf) as [k ->]. exact Hres.
  - intros Hf. destruct (Hgen Hf) as [k ->]. simpl.
    repeat split. exists k. reflexivity.
Qed.

(* ===================================================================== *)
(** ** Submission and the deferred computation *)
(* ===================================================================== *)

Lemma handlePredict_pass (w : World) :
  allNumeric (formData (component w)) ->
  handlePredict w
  = setTimeout (formData (component w)) 1500
      (setResult noResult (setIsSubmitting true w)).
Proof.
  intros Hall. unfold handlePredict.
  rewrite (validateForm_pass w Hall). reflexivity.
Qed.

Lemma handlePredict_fail (w : World) :
  fst (validateForm w) = false ->
  exists k, handlePredict w = toast (validationToast k) w.
Proof.
  intros Hf. destruct (validateForm_false w Hf) as [k Hk].
  exists k. unfold handlePredict. rewrite Hk. reflexivity.
Qed.

Lemma timeoutCallback_result (fd : FormData) (w : World) :
  result (component (timeoutCallback fd w))
  = if JS.gt (JS.Number (glucose fd)) (JS.of_Z 140)
       || JS.gt (JS.Number (bmi fd)) (JS.of_Z 30)
    then positiveResult else negativeResult.
Proof.
  unfold timeoutCallback.
  destruct (JS.gt (JS.Number (glucose fd)) (JS.of_Z 140)
            || JS.gt (JS.Number (bmi fd)) (JS.of_Z 30)); reflexivity.
Qed.

Lemma timeoutCallback_frame (fd : FormData) (w : World) :
  isSubmitting (component (timeoutCallback fd w)) = false
  /\ formData (component (timeoutCallback fd w)) = formData (component w)
  /\ timers (timeoutCallback fd w) = timers w
  /\ toasts (timeoutCallback fd w) = toasts w
  /\ now (timeoutCallback fd w) = now w.
Proof.
  unfold timeoutCallback.
  destruct (JS.gt (JS.Number (glucose fd)) (JS.of_Z 140)
            || JS.gt (JS.Number (bmi fd)) (JS.of_Z 30)); simpl; tauto.
Qed.

Lemma run_pending (t : Timer) (w w' : World) (ev : Event) :
  pending t w -> ev <> Timeout -> run w ev = Some w' ->
  pending t w' /\ now w <= now w'.
Proof.
  intros (Hsub & Htm & Hres) Hev Hrun. unfold pending.
  destruct ev as [field value | field value | | ms |]; simpl in Hrun.
  - injection Hrun as <-. simpl. repeat split; auto. lia.
  - destruct value as [|v rest]; [discriminate|].
    injection Hrun as <-. simpl. repeat split; auto. lia.
  - unfold Button_onClick in Hrun. rewrite Hsub in Hrun.
    injection Hrun as <-. repeat split; auto. lia.
  - destruct (0 <=? ms) eqn:Hms; [|discriminate].
    injection Hrun as <-. simpl. apply Z.leb_le in Hms.
    repeat split; auto. lia.
  - congruence.
Qed.

Lemma runAll_pending (t : Timer) (evs : list Event) :
  forall w w',
    pending t w -> ~ In Timeout evs -> runAll w evs = Some w' ->
    pending t w' /\ now w <= now w'.
Proof.
  induction evs as [|ev evs IH]; intros w w' Hp Hno Hrun; simpl in Hrun.
  - injection Hrun as <-. split; [exact Hp | lia].
  - destruct (run w ev) as [w1|] eqn:Hstep; [|discriminate].
    assert (Hev : ev <> Timeout) by (intros ->; apply Hno; left; reflexivity).
    destruct (run_pending t w w1 ev Hp Hev Hstep) as [Hp1 Hle1].
    destruct (IH w1 w' Hp1 (fun H => Hno (or_intror H)) Hrun) as [Hp' Hle'].
    split; [exact Hp' | lia].
Qed.

Lemma pending_Timeout (t : Timer) (w : World) :
  pending t w ->
  run w Timeout
  = if due t <=? now w then Some (timeoutCallback (captured t) (dropTimer w))
    else None.
Proof. intros (_ & Htm & _). simpl. rewrite Htm. reflexivity. Qed.

Lemma handlePredict_pending (w : World) :
  idle w -> allNumeric (formData (component w)) ->
  pending {| due := now w + 1500; captured := formData (component w) |}
          (handlePredict w).
Proof.
  intros [Hsub Htm] Hall. rewrite (handlePredict_pass w Hall).
  unfold pending. simpl. rewrite Htm. repeat split.
Qed.

Lemma run_consistent (w w' : World) (ev : Event) :
  consistent w -> run w ev = Some w' -> consistent w'.
Proof.
  intros [Hres Hmode] Hrun.
  destruct Hmode as [[Hsub Htm] | (t & Hp & Hall & Hdue)].
  - (* idle *)
    destruct ev as [field value | field value | | ms |]; simpl in Hrun.
    + injection Hrun as <-. split; [exact Hres | left; split; assumption].
    + destruct value as [|v rest]; [discriminate|].
      injection Hrun as <-. split; [exact Hres | left; split; assumption].
    + unfold Button_onClick in Hrun. rewrite Hsub in Hrun.
      injection Hrun as <-.
      destruct (fst (validateForm w)) eqn:Hv.
      * apply validateForm_true in Hv. split.
        -- left. rewrite (handlePredict_pass w Hv). reflexivity.
        -- right. eexists. split; [apply handlePredict_pending|];
             [split; assumption | exact Hv |].
           split; [exact Hv|]. rewrite (handlePredict_pass w Hv). simpl. lia.
      * destruct (handlePredict_fail w Hv) as [k ->].
        split; [exact Hres | left; split; assumption].
    + destruct (0 <=? ms); [|discriminate]. injection Hrun as <-.
      split; [exact Hres | left; split; assumption].
    + rewrite Htm in Hrun. discriminate.
  - (* a submission is pending *)
    assert (Hkeep : ev <> Timeout -> consistent w').
    { intros Hev.
      destruct (run_pending t w w' ev Hp Hev Hrun) as [(Hs' & Ht' & Hr') Hle].
      split; [left; exact Hr'|].
      right. exists t. split; [|split].
      - repeat split; assumption.
      - exact Hall.
      - lia. }
    destruct ev as [field value | field value | | ms |];
      try (apply Hkeep; discriminate).
    rewrite (pending_Timeout t w Hp) in Hrun.
    destruct (due t <=? now w); [|discriminate]. injection Hrun as <-.
    destruct Hp as (_ & Htm & _).
    destruct (timeoutCallback_frame (captured t) (dropTimer w))
      as (Hs & _ & Ht & _ & _).
    split.
    + rewrite timeoutCallback_result.
      destruct (JS.gt _ _ || JS.gt _ _); auto.
    + left. split; [exact Hs|]. rewrite Ht. simpl. rewrite Htm. reflexivity.
Qed.

Lemma initial_consistent : consistent initial.
Proof. split; [left; reflexivity | left; split; reflexivity]. Qed.

Lemma reachable_consistent (w : World) : reachable w -> consistent w.
Proof.
  induction 1 as [|w ev w' _ IH Hrun].
  - apply initial_consistent.
  - exact (run_consistent w w' ev IH Hrun).
Qed.

Lemma reachable_runAll (evs : list Event) :
  forall w w', reachable w -> runAll w evs = Some w' -> reachable w'.
Proof.
  induction evs as [|ev evs IH]; intros w w' Hw Hrun; simpl in Hrun.
  - injection Hrun as <-. exact Hw.
  - destruct (run w ev) as [w1|] eqn:Hstep; [|discriminate].
    exact (IH w1 w' (reachable_run w ev w1 Hw Hstep) Hrun).
Qed.

Lemma reachable_idle (w : World) :
  reachable w -> isSubmitting (component w) = false -> idle w.
Proof.
  intros Hw Hsub. destruct (reachable_consistent w Hw) as [_ [Hidle | (t & Hp & _)]].
  - exact Hidle.
  - destruct Hp as (Hs & _). congruence.
Qed.

Lemma typeIn_showing (fd : FormData) :
  runAll initial (typeIn fd) = Some (showing fd).
Proof. destruct fd; reflexivity. Qed.

Lemma showing_reachable (fd : FormData) : reachable (showing fd).
Proof.
  exact (reachable_runAll (typeIn fd) initial (showing fd)
           reachable_initial (typeIn_showing fd)).
Qed.

Lemma Click_submits (w : World) :
  isSubmitting (component w) = false -> run w Click = Some (handlePredict w).
Proof. intros Hsub. simpl. unfold Button_onClick. rewrite Hsub. reflexivity. Qed.

(** From an accepted click until its timer fires the submission stays
    pending, whatever else happens. *)
Lemma submitted_stays_pending (w w2 : World) (evs : list Event) :
  reachable w ->
  isSubmitting (component w) = false ->
  allNumeric (formData (component w)) ->
  ~ In Timeout evs ->
  runAll w (Click :: evs) = Some w2 ->
  pending {| due := now w + 1500; captured := formData (component w) |} w2
  /\ now w <= now w2.
Proof.
  intros Hw Hsub Hall Hno Hrun.
  change (runAll w (Click :: evs))
    with (match run w Click with
          | Some w' => runAll w' evs
          | None => None
          end) in Hrun.
  rewrite (Click_submits w Hsub) in Hrun.
  pose proof (handlePredict_pending w (reachable_idle w Hw Hsub) Hall) as Hp.
  destruct (runAll_pending _ evs _ _ Hp Hno Hrun) as [Hp2 Hle].
  split; [exact Hp2|].
  rewrite (handlePredict_pass w Hall) in Hle. exact Hle.
Qed.

Lemma pending_fires (t : Timer) (w : World) :
  pending t w -> due t <= now w ->
  run w Timeout = Some (timeoutCallback (captured t) (dropTimer w)).
Proof.
  intros Hp Hdue. rewrite (pending_Timeout t w Hp).
  apply Z.leb_le in Hdue. rewrite Hdue. reflexivity.
Qed.

(* ===================================================================== *)
(** ** Claims about the prediction *)
(* ===================================================================== *)

(** C1. A submission whose eight fields are all numeric, once its delay
    has passed, computes the prediction ["positive"] with the advisory
    message when [Number] of the glucose string is greater than 140 or
    [Number] of the bmi string is greater than 30, and ["negative"] with the
    reassuring message otherwise. The strings are those of the form at the
    click; what happens between the click and the timer does not matter. *)
Theorem prediction_rule (w w2 : World) (evs : list Event) :
  reachable w ->
  isSubmitting (component w) = false ->
  allNumeric (formData (component w)) ->
  ~ In Timeout evs ->
  runAll w (Click :: evs) = Some w2 ->
  now w + 1500 <= now w2 ->
  exists w3,
    run w2 Timeout = Some w3
    /\ (JS.gt (JS.Number (glucose (formData (component w)))) (JS.of_Z 140) = true
        \/ JS.gt (JS.Number (bmi (formData (component w)))) (JS.of_Z 30) = true ->
        result (component w3)
        = {| prediction := Some positive; message := advisoryMessage |})
    /\ (JS.gt (JS.Number (glucose (formData (component w)))) (JS.of_Z 140) = false
        /\ JS.gt (JS.Number (bmi (formData (component w)))) (JS.of_Z 30) = false ->
        result (component w3)
        = {| prediction := Some negative; message := reassuringMessage |}).
Proof.
  intros Hw Hsub Hall Hno Hrun Hlate.
  destruct (submitted_stays_pending w w2 evs Hw Hsub Hall Hno Hrun) as [Hp _].
  eexists. split; [exact (pending_fires _ w2 Hp Hlate)|].
  rewrite timeoutCallback_result. simpl captured.
  split.
  - intros Hgt. apply orb_true_iff in Hgt. rewrite Hgt. reflexivity.
  - intros [Hg Hb]. rewrite Hg, Hb. reflexivity.
Qed.

(** C2. Two submissions of numeric forms whose glucose strings denote the
    same number and whose bmi strings denote the same number, in particular
    two forms with the same glucose and bmi strings, compute the same
    result, prediction and message, whatever the other six fields hold and
    whatever happens while they are pending. *)
Theorem prediction_depends_on_glucose_and_bmi_only
  (wA wB wA2 wB2 : World) (evsA evsB : list Event) :
  reachable wA -> reachable wB ->
  isSubmitting (component wA) = false ->
  isSubmitting (component wB) = false ->
  allNumeric (formData (component wA)) ->
  allNumeric (formData (component wB)) ->
  JS.Number (glucose (formData (component wA)))
  = JS.Number (glucose (formData (component wB))) ->
  JS.Number (bmi (formData (component wA)))
  = JS.Number (bmi (formData (component wB))) ->
  ~ In Timeout evsA -> ~ In Timeout evsB ->
  runAll wA (Click :: evsA) = Some wA2 ->
  runAll wB (Click :: evsB) = Some wB2 ->
  now wA + 1500 <= now wA2 ->
  now wB + 1500 <= now wB2 ->
  exists wA3 wB3,
    run wA2 Timeout = Some wA3
    /\ run wB2 Timeout = Some wB3
    /\ result (component wA3) = result (component wB3)
    /\ prediction (result (component wA3)) <> None.
Proof.
  intros HwA HwB HsA HsB HallA HallB Hg Hb HnoA HnoB HrunA HrunB HlateA HlateB.
  destruct (submitted_stays_pending wA wA2 evsA HwA HsA HallA HnoA HrunA) as [HpA _].
  destruct (submitted_stays_pending wB wB2 evsB HwB HsB HallB HnoB HrunB) as [HpB _].
  eexists. eexists.
  split; [exact (pending_fires _ wA2 HpA HlateA)|].
  split; [exact (pending_fires _ wB2 HpB HlateB)|].
  rewrite !timeoutCallback_result. simpl captured. rewrite Hg, Hb.
  split; [reflexivity|].
  destruct (JS.gt _ _ || JS.gt _ _); discriminate.
Qed.

(** C10. In every reachable world the result is one of three records:
    [{null, ""}], positive with the advisory message, negative with the
    reassuring message; so the prediction is null exactly when the message
    is empty. After the deferred computation has run the prediction is not
    null and the message is not empty. *)
Theorem result_always_whole (w : World) :
  reachable w ->
  (result (component w) = {| prediction := None; message := "" |}
   \/ result (component w)
      = {| prediction := Some positive; message := advisoryMessage |}
   \/ result (component w)
      = {| prediction := Some negative; message := reassuringMessage |})
  /\ (prediction (result (component w)) = None
      <-> message (result (component w)) = "")
  /\ (forall w', run w Timeout = Some w' ->
        (prediction (result (component w')) = Some positive
         \/ prediction (result (component w')) = Some negative)
        /\ message (result (component w')) <> "").
Proof.
  intros Hw. destruct (reachable_consistent w Hw) as [Hres Hmode].
  split; [exact Hres|]. split.
  - destruct Hres as [-> | [-> | ->]]; split; intros H;
      try reflexivity; discriminate H.
  - intros w' Hrun. simpl in Hrun.
    destruct (timers w) as [|t rest]; [discriminate|].
    destruct (due t <=? now w); [|discriminate].
    injection Hrun as <-. rewrite timeoutCallback_result.
    destruct (JS.gt _ _ || JS.gt _ _); simpl; split; auto; discriminate.
Qed.

(* ===================================================================== *)
(** ** Claims about the life of a submission *)
(* ===================================================================== *)

(** C6. A click on the enabled button with all fields numeric runs
    [handlePredict]: the result is reset to [{null, ""}], [isSubmitting]
    becomes true and one timer is set, due 1500 ms later. Until that timer
    fires the world stays so; the timer cannot fire before the 1500 ms
    have passed, and once they have it fires, leaving a non-null
    prediction, [isSubmitting] false and no timer. *)
Theorem submission_lifecycle (w : World) :
  reachable w ->
  isSubmitting (component w) = false ->
  allNumeric (formData (component w)) ->
  run w Click = Some (handlePredict w)
  /\ result (component (handlePredict w)) = {| prediction := None; message := "" |}
  /\ isSubmitting (component (handlePredict w)) = true
  /\ timers (handlePredict w)
     = [{| due := now w + 1500; captured := formData (component w) |}]
  /\ (forall evs w2,
        ~ In Timeout evs ->
        runAll (handlePredict w) evs = Some w2 ->
        isSubmitting (component w2) = true
        /\ result (component w2) = {| prediction := None; message := "" |}
        /\ (now w2 < now w + 1500 -> run w2 Timeout = None)
        /\ (now w + 1500 <= now w2 ->
            exists w3,
              run w2 Timeout = Some w3
              /\ prediction (result (component w3)) <> None
              /\ isSubmitting (component w3) = false
              /\ timers w3 = [])).
Proof.
  intros Hw Hsub Hall.
  pose proof (handlePredict_pending w (reachable_idle w Hw Hsub) Hall)
    as Hp.
  split; [exact (Click_submits w Hsub)|].
  destruct Hp as (Hs1 & Ht1 & Hr1).
  split; [exact Hr1|]. split; [exact Hs1|]. split; [exact Ht1|].
  intros evs w2 Hno Hrun.
  destruct (runAll_pending _ evs _ _ (conj Hs1 (conj Ht1 Hr1)) Hno Hrun)
    as [Hp2 _].
  pose proof (pending_Timeout _ w2 Hp2) as Hfire. simpl due in Hfire.
  simpl captured in Hfire.
  destruct Hp2 as (Hs2 & Ht2 & Hr2).
  split; [exact Hs2|]. split; [exact Hr2|]. split.
  - intros Hearly. rewrite Hfire.
    destruct (now w + 1500 <=? now w2) eqn:Hle; [|reflexivity].
    apply Z.leb_le in Hle. lia.
  - intros Hlate. apply Z.leb_le in Hlate. rewrite Hlate in Hfire.
    eexists. split; [exact Hfire|].
    destruct (timeoutCallback_frame (formData (component w)) (dropTimer w2))
      as (Hs3 & _ & Ht3 & _ & _).
    split; [|split; [exact Hs3|]].
    + rewrite timeoutCallback_result.
      destruct (JS.gt _ _ || JS.gt _ _); discriminate.
    + rewrite Ht3. simpl. rewrite Ht2. reflexivity.
Qed.

(** C7. At most one timer is ever pending. While [isSubmitting] is true a
    click on the submit button leaves the whole world as it is: no state
    changes and no timer is added. No event other than the timer firing
    removes the pending timer or clears [isSubmitting], and letting the
    remaining time pass lets the timer fire and leave a result. *)
Theorem no_overlapping_submissions (w : World) :
  reachable w ->
  (List.length (timers w) <= 1)%nat
  /\ (isSubmitting (component w) = true ->
      run w Click = Some w
      /\ exists t,
           timers w = [t]
           /\ (forall ev w',
                 ev <> Timeout -> run w ev = Some w' ->
                 timers w' = [t] /\ isSubmitting (component w') = true)
           /\ (exists w1 w2,
                 run w (Elapse (Z.max 0 (due t - now w))) = Some w1
                 /\ run w1 Timeout = Some w2
                 /\ prediction (result (component w2)) <> None
                 /\ isSubmitting (component w2) = false
                 /\ timers w2 = [])).
Proof.
  intros Hw.
  destruct (reachable_consistent w Hw) as [_ [[Hsub Htm] | (t & Hp & _ & _)]].
  - split; [rewrite Htm; simpl; lia|]. congruence.
  - pose proof Hp as (Hsub & Htm & Hres).
    split; [rewrite Htm; simpl; lia|].
    intros _. split.
    + simpl. unfold Button_onClick. rewrite Hsub. reflexivity.
    + exists t. split; [exact Htm|]. split.
      * intros ev w' Hev Hrun.
        destruct (run_pending t w w' ev Hp Hev Hrun) as [(Hs' & Ht' & _) _].
        split; assumption.
      * set (ms := Z.max 0 (due t - now w)).
        assert (Hms : 0 <= ms) by (unfold ms; lia).
        assert (Hstep : run w (Elapse ms) = Some (advance ms w)).
        { simpl. apply Z.leb_le in Hms. rewrite Hms. reflexivity. }
        assert (Hp1 : pending t (advance ms w)).
        { apply (run_pending t w (advance ms w) (Elapse ms) Hp);
            [discriminate | exact Hstep]. }
        assert (Hdue : due t <= now (advance ms w)) by (simpl; unfold ms; lia).
        exists (advance ms w). eexists.
        split; [exact Hstep|].
        split; [exact (pending_fires t _ Hp1 Hdue)|].
        destruct (timeoutCallback_frame (captured t) (dropTimer (advance ms w)))
          as (Hs3 & _ & Ht3 & _ & _).
        split; [|split; [exact Hs3|]].
        -- rewrite timeoutCallback_result.
           destruct (JS.gt _ _ || JS.gt _ _); discriminate.
        -- rewrite Ht3. simpl. rewrite Htm. reflexivity.
Qed.

(* ===================================================================== *)
(** ** Claims about editing *)
(* ===================================================================== *)

Lemma get_set_same (fd : FormData) (field : Key) (v : string) :
  get (set fd field v) field = v.
Proof. destruct field; reflexivity. Qed.

Lemma get_set_other (fd : FormData) (field k : Key) (v : string) :
  k <> field -> get (set fd field v) k = get fd k.
Proof. intros Hne. destruct field, k; try reflexivity; congruence. Qed.

(** C9. Typing [v] into the text input of a field makes that field's
    string [v]; dragging its slider to [n] makes it [n.toString()]. Either
    way the other seven strings, [result], [isSubmitting], the timers and
    the notifications are as before: nothing is validated at edit time. *)
Theorem edits_touch_one_field (w : World) (field : Key) :
  (forall v,
     exists w',
       run w (InputChange field v) = Some w'
       /\ get (formData (component w')) field = v
       /\ (forall k, k <> field ->
             get (formData (component w')) k = get (formData (component w)) k)
       /\ result (component w') = result (component w)
       /\ isSubmitting (component w') = isSubmitting (component w)
       /\ toasts w' = toasts w
       /\ timers w' = timers w)
  /\ (forall n rest,
        exists w',
          run w (SliderChange field (n :: rest)) = Some w'
          /\ get (formData (component w')) field = JS.toString n
          /\ (forall k, k <> field ->
                get (formData (component w')) k = get (formData (component w)) k)
          /\ result (component w') = result (component w)
          /\ isSubmitting (component w') = isSubmitting (component w)
          /\ toasts w' = toasts w
          /\ timers w' = timers w).
Proof.
  split.
  - intros v. eexists. split; [reflexivity|]. simpl.
    split; [apply get_set_same|].
    split; [intros k Hne; apply get_set_other, Hne|].
    repeat split.
  - intros n rest. eexists. split; [reflexivity|]. simpl.
    split; [apply get_set_same|].
    split; [intros k Hne; apply get_set_other, Hne|].
    repeat split.
Qed.

(* ===================================================================== *)
(** ** The claims at concrete forms *)
(* ===================================================================== *)

Ltac numeric_form :=
  let k := fresh "k" in
  intros k; destruct k; (split; [vm_compute; discriminate | vm_compute; reflexivity]).

Ltac no_Timeout :=
  simpl; intuition discriminate.

(** The spec's sample submissions, run from the initial page: type the
    form, click, wait 1500 ms, let the timer fire. *)
Example glucose_150_bmi_25 :
  option_map (fun w => prediction (result (component w)))
    (runAll initial (typeIn (sample "150" "25") ++ [Click; Elapse 1500; Timeout]))
  = Some (Some positive).
Proof. vm_compute. reflexivity. Qed.

Example glucose_100_bmi_35 :
  option_map (fun w => prediction (result (component w)))
    (runAll initial (typeIn (sample "100" "35") ++ [Click; Elapse 1500; Timeout]))
  = Some (Some positive).
Proof. vm_compute. reflexivity. Qed.

Example glucose_100_bmi_25 :
  option_map (fun w => prediction (result (component w)))
    (runAll initial (typeIn (sample "100" "25") ++ [Click; Elapse 1500; Timeout]))
  = Some (Some negative).
Proof. vm_compute. reflexivity. Qed.

(** The glucose string is above 140 as a decimal but denotes the number
    140: the prediction is negative. *)
Example glucose_rounding_to_140 :
  option_map (fun w => prediction (result (component w)))
    (runAll initial (typeIn (sample "140.00000000000000001" "20")
                     ++ [Click; Elapse 1500; Timeout]))
  = Some (Some negative).
Proof. vm_compute. reflexivity. Qed.

(** A second click while the first submission is pending adds no timer,
    and edits made meanwhile do not reach the pending computation. *)
Example second_click_and_late_edit :
  option_map (fun w => (prediction (result (component w)), timers w, toasts w))
    (runAll initial (typeIn (sample "100" "25")
                     ++ [Click; Click; InputChange Kglucose "200";
                         SliderChange Kbmi [JS.of_Z 45]; Elapse 1500; Timeout]))
  = Some (Some negative, [], []).
Proof. vm_compute. reflexivity. Qed.

Example timer_not_due_after_1499_ms :
  runAll initial (typeIn (sample "100" "25") ++ [Click; Elapse 1499; Timeout])
  = None.
Proof. vm_compute. reflexivity. Qed.

(** Glucose exactly 140 with bmi 20: the comparison is strict, the
    prediction is negative. *)
Lemma prediction_rule_boundary :
  exists w3,
    run (advance 1500 (handlePredict (showing (sample "140" "20")))) Timeout
    = Some w3
    /\ result (component w3)
       = {| prediction := Some negative; message := reassuringMessage |}.
Proof.
  destruct (prediction_rule (showing (sample "140" "20"))
              (advance 1500 (handlePredict (showing (sample "140" "20"))))
              [Elapse 1500])
    as (w3 & Hrun & _ & Hneg).
  - apply showing_reachable.
  - reflexivity.
  - numeric_form.
  - no_Timeout.
  - vm_compute. reflexivity.
  - vm_compute. discriminate.
  - exists w3. split; [exact Hrun|].
    apply Hneg. split; vm_compute; reflexivity.
Defined.

(** Two forms with glucose 150 and bmi 25, written differently and with
    different other fields, the second submission disturbed by an edit and
    a second click. *)
Lemma prediction_depends_on_glucose_and_bmi_only_witness :
  exists wA3 wB3,
    run (advance 1500 (handlePredict (showing (sample "150" "25")))) Timeout
    = Some wA3
    /\ run (advance 2000
              (handleInputChange Kglucose "90"
                 (handlePredict (showing (otherSample "1.5e2" "25.0"))))) Timeout
       = Some wB3
    /\ result (component wA3) = result (component wB3)
    /\ prediction (result (component wA3)) <> None.
Proof.
  apply (prediction_depends_on_glucose_and_bmi_only
           (showing (sample "150" "25")) (showing (otherSample "1.5e2" "25.0"))
           _ _ [Elapse 1500] [InputChange Kglucose "90"; Click; Elapse 2000]).
  - apply showing_reachable.
  - apply showing_reachable.
  - reflexivity.
  - reflexivity.
  - numeric_form.
  - numeric_form.
  - vm_compute. reflexivity.
  - vm_compute. reflexivity.
  - no_Timeout.
  - no_Timeout.
  - vm_compute. reflexivity.
  - vm_compute. reflexivity.
  - vm_compute. discriminate.
  - vm_compute. discriminate.
Defined.

(** Glucose is not a number and bmi is empty: validation stops at a first
    failing field and raises one notification. *)
Lemma validateForm_first_failure_witness :
  exists pre k post,
    requiredFields = (pre ++ k :: post)%list
    /\ (forall k', In k' pre ->
          numeric (get (formData (component (showing (sample "12a" "")))) k'))
    /\ (get (formData (component (showing (sample "12a" "")))) k = ""
        \/ JS.isNaN (JS.Number
                       (get (formData (component (showing (sample "12a" "")))) k))
           = true)
    /\ component (snd (validateForm (showing (sample "12a" ""))))
       = component (showing (sample "12a" ""))
    /\ toasts (snd (validateForm (showing (sample "12a" ""))))
       = (toasts (showing (sample "12a" "")) ++ [validationToast k])%list
    /\ description (validationToast k)
       = ("Please enter a valid number for " ++ humanName k)%string
    /\ (forall w',
          (forall k', In k' (pre ++ [k]) ->
             get (formData (component w')) k'
             = get (formData (component (showing (sample "12a" "")))) k') ->
          validateForm w' = (false, toast (validationToast k) w')).
Proof.
  apply (proj2 (proj2 (proj2
           (validateForm_first_failure (showing (sample "12a" "")))))).
  vm_compute. reflexivity.
Defined.

(** Only bmi is empty: the notification names bmi and the result stays
    [{null, ""}]. *)
Lemma failed_validation_changes_nothing_witness :
  handlePredict (showing (sample "150" ""))
  = toast (validationToast Kbmi) (showing (sample "150" ""))
  /\ result (component (handlePredict (showing (sample "150" "")))) = noResult.
Proof.
  destruct (proj1 (failed_validation_changes_nothing (showing (sample "150" "")))
              Kbmi eq_refl) as (_ & Hname & Hres).
  split.
  - apply Hname. intros k Hk.
    destruct k; simpl in Hk; try lia;
      (split; [vm_compute; discriminate | vm_compute; reflexivity]).
  - apply Hres. reflexivity.
Defined.

(** [validateForm] by itself does not ask for finite values: on a form
    that holds the text ["Infinity"], which no number input hands over,
    it succeeds. *)
Lemma validateForm_accepts_Infinity :
  fst (validateForm (showing (sample "Infinity" "20"))) = true
  /\ JS.isFinite
       (JS.Number (get (formData (component (showing (sample "Infinity" "20"))))
                       Kglucose))
     = false.
Proof. split; vm_compute; reflexivity. Qed.

Lemma validateForm_success_not_NaN_witness :
  get (formData (component (showing (sample "Infinity" "20")))) Kglucose <> ""
  /\ JS.isNaN
       (JS.Number (get (formData (component (showing (sample "Infinity" "20"))))
                       Kglucose))
     = false.
Proof.
  apply (validateForm_success_not_NaN (showing (sample "Infinity" "20"))).
  vm_compute. reflexivity.
Defined.

(** Glucose 1000 lies outside the slider range 0..300 and validates. *)
Lemma validateForm_ignores_fieldRanges_witness :
  inRange Kglucose (JS.Number (glucose (sample "1000" "25"))) = false
  /\ validateForm (showing (sample "1000" "25"))
     = (true, showing (sample "1000" "25"))
  /\ isSubmitting (component (handlePredict (showing (sample "1000" "25")))) = true
  /\ toasts (handlePredict (showing (sample "1000" "25")))
     = toasts (showing (sample "1000" "25")).
Proof.
  split; [vm_compute; reflexivity|].
  apply (validateForm_ignores_fieldRanges (showing (sample "1000" "25"))).
  numeric_form.
Defined.

Lemma submission_lifecycle_witness :
  run (showing (sample "150" "25")) Click
  = Some (handlePredict (showing (sample "150" "25")))
  /\ timers (handlePredict (showing (sample "150" "25")))
     = [{| due := 1500; captured := sample "150" "25" |}]
  /\ run (handlePredict (showing (sample "150" "25"))) Timeout = None.
Proof.
  destruct (submission_lifecycle (showing (sample "150" "25")))
    as (Hclick & _ & _ & Htm & Hlater).
  - apply showing_reachable.
  - reflexivity.
  - numeric_form.
  - split; [exact Hclick|]. split; [exact Htm|].
    destruct (Hlater [] (handlePredict (showing (sample "150" "25"))))
      as (_ & _ & Hearly & _).
    + no_Timeout.
    + reflexivity.
    + apply Hearly. vm_compute. reflexivity.
Defined.

Lemma no_overlapping_submissions_witness :
  run (handlePredict (showing (sample "150" "25"))) Click
  = Some (handlePredict (showing (sample "150" "25"))).
Proof.
  destruct (no_overlapping_submissions
              (handlePredict (showing (sample "150" "25")))) as [_ H].
  - apply (reachable_run (showing (sample "150" "25")) Click).
    + apply showing_reachable.
    + reflexivity.
  - destruct H as [Hnoop _]; [vm_compute; reflexivity | exact Hnoop].
Defined.

(** Typing a non-numeric string is accepted at edit time and touches only
    its own field. *)
Lemma edits_touch_one_field_witness :
  exists w',
    run initial (InputChange Kbmi "12a") = Some w'
    /\ get (formData (component w')) Kbmi = "12a"
    /\ get (formData (component w')) Kglucose = ""
    /\ toasts w' = [].
Proof.
  destruct (proj1 (edits_touch_one_field initial Kbmi) "12a")
    as (w' & Hrun & Hsame & Hother & _ & _ & Htoasts & _).
  exists w'. split; [exact Hrun|]. split; [exact Hsame|].
  split; [|exact Htoasts].
  apply (Hother Kglucose). discriminate.
Defined.

(** A submission of glucose 150 and bmi 25 whose delay has passed: the
    timer fires and leaves a prediction together with its message. *)
Lemma result_always_whole_witness :
  exists w',
    run (advance 1500 (handlePredict (showing (sample "150" "25")))) Timeout
    = Some w'
    /\ (prediction (result (component w')) = Some positive
        \/ prediction (result (component w')) = Some negative)
    /\ message (result (component w')) <> "".
Proof.
  destruct (result_always_whole
              (advance 1500 (handlePredict (showing (sample "150" "25")))))
    as (_ & _ & Hpost).
  - apply (reachable_runAll [Click; Elapse 1500] (showing (sample "150" "25"))).
    + apply showing_reachable.
    + reflexivity.
  - eexists. split; [reflexivity|]. apply Hpost. reflexivity.
Defined.

(* ===================================================================== *)
(** ** Further properties: edits, notifications and what is rendered *)
(* ===================================================================== *)

Lemma set_set_same (fd : FormData) (field : Key) (a b : string) :
  set (set fd field a) field b = set fd field b.
Proof. destruct field; reflexivity. Qed.

Lemma set_set_other (fd : FormData) (f g : Key) (a b : string) :
  f <> g -> set (set fd f a) g b = set (set fd g b) f a.
Proof. intros Hne. destruct f, g; try reflexivity; congruence. Qed.

Lemma set_all (fd0 fd : FormData) :
  fold_left (fun acc k => set acc k (get fd k)) requiredFields fd0 = fd.
Proof. destruct fd, fd0; reflexivity. Qed.

Lemma runAll_InputChanges (fields : list Key) (fd : FormData) :
  forall w,
    runAll w (map (fun k => InputChange k (get fd k)) fields)
    = Some (setFormData
              (fun prev => fold_left (fun acc k => set acc k (get fd k)) fields prev)
              w).
Proof.
  induction fields as [|k rest IH]; intros w; simpl.
  - destruct w as [[f r s] ts tm n]. reflexivity.
  - rewrite IH. destruct w as [[f r s] ts tm n]. reflexivity.
Qed.

(** X1. Edits compose as writes to one record: a second edit of the same
    field replaces the first, edits of different fields commute, a slider
    edit is the text edit with the printed number, and typing all eight
    fields replaces the whole form whatever it held. *)
Theorem edits_compose (w : World) (f g : Key) (a b : string) :
  handleInputChange f b (handleInputChange f a w) = handleInputChange f b w
  /\ (f <> g ->
      handleInputChange g b (handleInputChange f a w)
      = handleInputChange f a (handleInputChange g b w))
  /\ (forall n rest,
        handleSliderChange f (n :: rest) w
        = Some (handleInputChange f (JS.toString n) w))
  /\ (forall fd, runAll w (typeIn fd) = Some (setFormData (fun _ => fd) w)).
Proof.
  split; [|split; [|split]].
  - unfold handleInputChange, setFormData. simpl.
    rewrite set_set_same. reflexivity.
  - intros Hne. unfold handleInputChange, setFormData. simpl.
    rewrite (set_set_other _ f g a b Hne). reflexivity.
  - reflexivity.
  - intros fd. unfold typeIn. rewrite runAll_InputChanges.
    unfold setFormData. rewrite set_all. reflexivity.
Qed.

Lemma edits_compose_witness :
  handleInputChange Kbmi "31" (handleInputChange Kglucose "150" initial)
  = handleInputChange Kglucose "150" (handleInputChange Kbmi "31" initial).
Proof.
  apply (proj1 (proj2 (edits_compose initial Kglucose Kbmi "150" "31"))).
  discriminate.
Defined.

(** X2. Only edits change the form: a click, accepted or not, the passing
    of time and the timer's callback leave all eight strings as they were;
    a submission never clears or rewrites the form. *)
Theorem only_edits_change_the_form (w w' : World) (ev : Event) :
  run w ev = Some w' ->
  isEdit ev = false ->
  formData (component w') = formData (component w).
Proof.
  intros Hrun Hev.
  destruct ev as [field value | field value | | ms |]; try discriminate;
    simpl in Hrun.
  - injection Hrun as <-. unfold Button_onClick.
    destruct (isSubmitting (component w)); [reflexivity|].
    destruct (fst (validateForm w)) eqn:Hv.
    + apply validateForm_true in Hv. rewrite (handlePredict_pass w Hv).
      reflexivity.
    + destruct (handlePredict_fail w Hv) as [k ->]. reflexivity.
  - destruct (0 <=? ms); [|discriminate]. injection Hrun as <-. reflexivity.
  - destruct (timers w) as [|t rest]; [discriminate|].
    destruct (due t <=? now w); [|discriminate]. injection Hrun as <-.
    destruct (timeoutCallback_frame (captured t) (dropTimer w))
      as (_ & Hfd & _). exact Hfd.
Qed.

Lemma only_edits_change_the_form_witness :
  formData (component (handlePredict (showing (sample "150" "25"))))
  = sample "150" "25".
Proof.
  apply (only_edits_change_the_form (showing (sample "150" "25")) _ Click);
    reflexivity.
Defined.

(** X3. The result changes at two places only: an accepted click, on the
    enabled button with all fields numeric, resets it to [{null, ""}], and
    the timer's callback writes a prediction. Every other event, a
    rejected click included, leaves it as it was, so a card on screen can
    outlive the form it was computed from. *)
Theorem result_changes_only_on_submit_and_timer (w w' : World) (ev : Event) :
  run w ev = Some w' ->
  result (component w') = result (component w)
  \/ (ev = Click
      /\ isSubmitting (component w) = false
      /\ allNumeric (formData (component w))
      /\ result (component w') = noResult)
  \/ (ev = Timeout
      /\ (result (component w') = positiveResult
          \/ result (component w') = negativeResult)).
Proof.
  intros Hrun.
  destruct ev as [field value | field value | | ms |]; simpl in Hrun.
  - injection Hrun as <-. left. reflexivity.
  - destruct value as [|v rest]; [discriminate|]. injection Hrun as <-.
    left. reflexivity.
  - injection Hrun as <-. unfold Button_onClick.
    destruct (isSubmitting (component w)) eqn:Hsub; [left; reflexivity|].
    destruct (fst (validateForm w)) eqn:Hv.
    + apply validateForm_true in Hv. right. left.
      rewrite (handlePredict_pass w Hv).
      split; [reflexivity|]. split; [reflexivity|].
      split; [exact Hv | reflexivity].
    + destruct (handlePredict_fail w Hv) as [k ->]. left. reflexivity.
  - destruct (0 <=? ms); [|discriminate]. injection Hrun as <-.
    left. reflexivity.
  - destruct (timers w) as [|t rest]; [discriminate|].
    destruct (due t <=? now w); [|discriminate]. injection Hrun as <-.
    right. right. split; [reflexivity|].
    rewrite timeoutCallback_result.
    destruct (JS.gt _ _ || JS.gt _ _); auto.
Qed.

Lemma result_changes_only_on_submit_and_timer_witness :
  result (component (handlePredict (showing (sample "150" ""))))
  = result (component (showing (sample "150" ""))).
Proof.
  destruct (result_changes_only_on_submit_and_timer
              (showing (sample "150" "")) _ Click eq_refl)
    as [H | [(_ & _ & Hall & _) | (H & _)]].
  - exact H.
  - destruct (Hall Kbmi) as [Hne _]. exfalso. apply Hne. reflexivity.
  - discriminate H.
Defined.

Lemma run_toasts (w w' : World) (ev : Event) :
  run w ev = Some w' ->
  toasts w' = toasts w
  \/ (ev = Click
      /\ isSubmitting (component w) = false
      /\ fst (validateForm w) = false
      /\ exists k, w' = toast (validationToast k) w).
Proof.
  intros Hrun.
  destruct ev as [field value | field value | | ms |]; simpl in Hrun.
  - injection Hrun as <-. left. reflexivity.
  - destruct value as [|v rest]; [discriminate|]. injection Hrun as <-.
    left. reflexivity.
  - injection Hrun as <-. unfold Button_onClick.
    destruct (isSubmitting (component w)) eqn:Hsub; [left; reflexivity|].
    destruct (fst (validateForm w)) eqn:Hv.
    + apply validateForm_true in Hv. left.
      rewrite (handlePredict_pass w Hv). reflexivity.
    + destruct (handlePredict_fail w Hv) as [k Hk]. right.
      repeat split; auto. exists k. exact Hk.
  - destruct (0 <=? ms); [|discriminate]. injection Hrun as <-.
    left. reflexivity.
  - destruct (timers w) as [|t rest]; [discriminate|].
    destruct (due t <=? now w); [|discriminate]. injection Hrun as <-.
    left.
    destruct (timeoutCallback_frame (captured t) (dropTimer w))
      as (_ & _ & _ & Hts & _). exact Hts.
Qed.

(** X4. Notifications come from rejected clicks only. An event either
    leaves the notifications as they were or is a click on the enabled
    button with a field that does not validate, which appends exactly one
    and changes nothing else. Hence every notification ever shown is the
    validation error of one of the eight fields. *)
Theorem toasts_come_from_rejected_clicks (w : World) :
  reachable w ->
  Forall (fun t => exists k, t = validationToast k) (toasts w)
  /\ (forall ev w',
        run w ev = Some w' ->
        toasts w' = toasts w
        \/ (ev = Click
            /\ isSubmitting (component w) = false
            /\ fst (validateForm w) = false
            /\ exists k, w' = toast (validationToast k) w)).
Proof.
  intros Hw. split; [|intros ev w' Hrun; exact (run_toasts w w' ev Hrun)].
  induction Hw as [|w ev w' _ IH Hrun]; [constructor|].
  destruct (run_toasts w w' ev Hrun) as [-> | (_ & _ & _ & k & ->)];
    [exact IH|].
  simpl. apply Forall_app. split; [exact IH|].
  constructor; [exists k; reflexivity | constructor].
Qed.

Lemma toasts_come_from_rejected_clicks_witness :
  Forall (fun t => exists k, t = validationToast k)
         (toasts (handlePredict (showing (sample "150" "")))).
Proof.
  apply (toasts_come_from_rejected_clicks
           (handlePredict (showing (sample "150" "")))).
  apply (reachable_run (showing (sample "150" "")) Click).
  - apply showing_reachable.
  - reflexivity.
Defined.

(** X5. Clicking [n] times on the enabled button of a form that does not
    validate raises [n] copies of one notification and changes nothing
    else: notifications are neither merged nor limited. *)
Theorem rejected_clicks_pile_up (w : World) :
  isSubmitting (component w) = false ->
  fst (validateForm w) = false ->
  exists k,
    forall n,
      exists w',
        runAll w (repeat Click n) = Some w'
        /\ toasts w' = (toasts w ++ repeat (validationToast k) n)%list
        /\ component w' = component w
        /\ timers w' = timers w
        /\ now w' = now w.
Proof.
  intros Hsub Hf. unfold validateForm in Hf.
  destruct (validateFields_cases w requiredFields)
    as [[_ Hrun] | (pre & k & post & Heq & Hpre & Hbad & _)];
    [rewrite Hrun in Hf; discriminate|].
  exists k.
  assert (Hstep : forall w1,
            formData (component w1) = formData (component w) ->
            handlePredict w1 = toast (validationToast k) w1).
  { intros w1 Hfd. unfold handlePredict, validateForm. rewrite Heq.
    rewrite (validateFields_stop w1 pre post k); [reflexivity | |];
      rewrite Hfd; assumption. }
  intros n.
  assert (Hgen : forall w1,
            formData (component w1) = formData (component w) ->
            isSubmitting (component w1) = false ->
            exists w',
              runAll w1 (repeat Click n) = Some w'
              /\ toasts w' = (toasts w1 ++ repeat (validationToast k) n)%list
              /\ component w' = component w1
              /\ timers w' = timers w1
              /\ now w' = now w1).
  { induction n as [|n IH]; intros w1 Hfd Hs1.
    - exists w1. simpl. rewrite app_nil_r. repeat split.
    - simpl repeat.
      change (runAll w1 (Click :: repeat Click n))
        with (match run w1 Click with
              | Some w2 => runAll w2 (repeat Click n)
              | None => None
              end).
      rewrite (Click_submits w1 Hs1), (Hstep w1 Hfd).
      destruct (IH (toast (validationToast k) w1) Hfd Hs1)
        as (w' & Hrun & Hts & Hc & Htm & Hn).
      exists w'. split; [exact Hrun|]. split.
      + rewrite Hts. simpl. rewrite <- app_assoc. reflexivity.
      + repeat split; assumption. }
  exact (Hgen w eq_refl Hsub).
Qed.

Lemma rejected_clicks_pile_up_witness :
  exists k,
    forall n,
      exists w',
        runAll (showing (sample "150" "")) (repeat Click n) = Some w'
        /\ toasts w'
           = (toasts (showing (sample "150" "")) ++ repeat (validationToast k) n)%list
        /\ component w' = component (showing (sample "150" ""))
        /\ timers w' = timers (showing (sample "150" ""))
        /\ now w' = now (showing (sample "150" "")).
Proof.
  apply (rejected_clicks_pile_up (showing (sample "150" ""))).
  - reflexivity.
  - vm_compute. reflexivity.
Defined.

(** X6. What is on screen is consistent in every reachable world. While
    the button is disabled no result card is rendered and exactly one
    timer is pending; while it is enabled no timer is pending, so the
    result cannot change behind the user's back. A rendered card is either
    the warning card with the advisory message or the success card with
    the reassuring message. *)
Theorem spinner_excludes_card (w : World) :
  reachable w ->
  (Button_disabled w = true ->
   resultCard (result (component w)) = None
   /\ List.length (timers w) = 1%nat)
  /\ (Button_disabled w = false ->
      timers w = [] /\ run w Timeout = None)
  /\ (forall c,
        resultCard (result (component w)) = Some c ->
        c = {| cardClass := "border-warning bg-warning/5"; icon := AlertCircle;
               headingClass := "text-warning"; paragraph := advisoryMessage |}
        \/ c = {| cardClass := "border-success bg-success/5"; icon := CheckCircle2;
                  headingClass := "text-success"; paragraph := reassuringMessage |}).
Proof.
  intros Hw. unfold Button_disabled.
  destruct (reachable_consistent w Hw) as [Hres Hmode].
  split; [|split].
  - intros Hsub.
    destruct Hmode as [[Hidle _] | (t & (_ & Htm & Hr) & _)]; [congruence|].
    rewrite Hr, Htm. split; reflexivity.
  - intros Hsub.
    destruct Hmode as [[_ Htm] | (t & (Hs & _) & _)]; [|congruence].
    split; [exact Htm|]. simpl. rewrite Htm. reflexivity.
  - intros c Hc.
    destruct Hres as [Hr | [Hr | Hr]]; rewrite Hr in Hc; simpl in Hc.
    + discriminate.
    + injection Hc as <-. left. reflexivity.
    + injection Hc as <-. right. reflexivity.
Qed.

Lemma spinner_excludes_card_witness :
  resultCard (result (component (handlePredict (showing (sample "150" "25")))))
  = None
  /\ List.length (timers (handlePredict (showing (sample "150" "25")))) = 1%nat.
Proof.
  destruct (spinner_excludes_card (handlePredict (showing (sample "150" "25"))))
    as (H & _).
  - apply (reachable_run (showing (sample "150" "25")) Click).
    + apply showing_reachable.
    + reflexivity.
  - apply H. reflexivity.
Defined.

(** X7. Whatever a field holds, its label is never the empty string: it
    shows the field's own text when there is any, white space included,
    and the fallback text when the field is empty. Its slider is handed
    exactly one number, which is neither NaN nor -0: 0 when the field is
    empty or does not parse, and the parsed number otherwise. *)
Theorem render_never_shows_NaN (field : Key) (fd : FormData) :
  labelText field fd <> ""
  /\ (get fd field <> "" -> labelText field fd = get fd field)
  /\ exists v,
       sliderValue field fd = [v]
       /\ JS.isNaN v = false
       /\ v <> S754_zero true
       /\ (JS.isNaN (JS.Number (get fd field)) = true -> v = JS.of_Z 0)
       /\ (get fd field = "" ->
           v = JS.of_Z 0
           /\ labelText field fd
              = match field with KdiabetesPedigree => "0.000" | _ => "0" end)
       /\ (truthyNumber (JS.Number (get fd field)) = true ->
           v = JS.Number (get fd field)).
Proof.
  split; [|split].
  - unfold labelText. destruct (get fd field) eqn:Hs; simpl.
    + destruct field; discriminate.
    + discriminate.
  - intros Hne. unfold labelText.
    destruct (get fd field); [congruence | reflexivity].
  - exists (orZero (JS.Number (get fd field))).
    split; [reflexivity|].
    split; [|split; [|split; [|split]]].
    + unfold orZero. destruct (JS.Number (get fd field)); reflexivity.
    + unfold orZero. destruct (JS.Number (get fd field)); simpl; discriminate.
    + intros Hnan. unfold orZero.
      destruct (JS.Number (get fd field)); try discriminate. reflexivity.
    + intros Hs. unfold labelText. rewrite Hs. split; reflexivity.
    + intros Ht. unfold orZero. rewrite Ht. reflexivity.
Qed.

(** A field of one space shows as that space; a field that does not
    parse puts the slider at 0. *)
Lemma render_never_shows_NaN_witness :
  labelText Kglucose (sample " " "25") = " "
  /\ exists v,
       sliderValue Kglucose (sample "12a" "25") = [v] /\ v = JS.of_Z 0.
Proof.
  split.
  - apply (proj1 (proj2 (render_never_shows_NaN Kglucose (sample " " "25")))).
    discriminate.
  - destruct (proj2 (proj2 (render_never_shows_NaN Kglucose (sample "12a" "25"))))
      as (v & Hv & _ & _ & Hnan & _).
    exists v. split; [exact Hv|]. apply Hnan. vm_compute. reflexivity.
Defined.

(* ===================================================================== *)
(** ** Further properties: what [Number] makes of a field *)
(* ===================================================================== *)

Lemma list_ascii_of_string_app (a b : string) :
  list_ascii_of_string (a ++ b)
  = (list_ascii_of_string a ++ list_ascii_of_string b)%list.
Proof. induction a as [|c a IH]; simpl; [reflexivity | rewrite IH; reflexivity]. Qed.

Section DropWhile.

Variable p : ascii -> bool.

Lemma dropWhile_all (ws l : list ascii) :
  Forall (fun c => p c = true) ws ->
  JS.dropWhile p (ws ++ l) = JS.dropWhile p l.
Proof.
  induction 1 as [|c ws Hc _ IH]; simpl; [reflexivity|].
  rewrite Hc. exact IH.
Qed.

Lemma dropWhile_app (l r : list ascii) :
  JS.dropWhile p (l ++ r)
  = match JS.dropWhile p l with
    | [] => JS.dropWhile p r
    | d => (d ++ r)%list
    end.
Proof.
  induction l as [|c l IH]; simpl.
  - destruct (JS.dropWhile p r); reflexivity.
  - destruct (p c); [exact IH | reflexivity].
Qed.

Lemma dropWhile_none (l : list ascii) :
  Forall (fun c => p c = false) l -> JS.dropWhile p l = l.
Proof. destruct 1 as [|c l Hc _]; simpl; [reflexivity | rewrite Hc; reflexivity]. Qed.

End DropWhile.

Lemma trim_padding (ws l ws' : list ascii) :
  Forall (fun c => JS.isStrWhiteSpaceChar c = true) ws ->
  Forall (fun c => JS.isStrWhiteSpaceChar c = true) ws' ->
  JS.trim (ws ++ l ++ ws') = JS.trim l.
Proof.
  intros Hws Hws'. unfold JS.trim.
  rewrite (dropWhile_all _ ws _ Hws), dropWhile_app.
  destruct (JS.dropWhile JS.isStrWhiteSpaceChar l) as [|c d] eqn:Hd.
  - rewrite <- (app_nil_r ws'), (dropWhile_all _ ws' [] Hws'). reflexivity.
  - rewrite rev_app_distr.
    rewrite (dropWhile_all _ (rev ws') _); [reflexivity|].
    apply Forall_rev, Hws'.
Qed.

Lemma trim_unpadded (l : list ascii) :
  Forall (fun c => JS.isStrWhiteSpaceChar c = false) l -> JS.trim l = l.
Proof.
  intros Hl. unfold JS.trim.
  rewrite (dropWhile_none _ l Hl).
  rewrite (dropWhile_none _ (rev l) (Forall_rev Hl)).
  apply rev_involutive.
Qed.

Lemma Number_padding (ws s ws' : string) :
  blank ws -> blank ws' -> JS.Number (ws ++ s ++ ws') = JS.Number s.
Proof.
  intros Hws Hws'. unfold JS.Number.
  rewrite !list_ascii_of_string_app, (trim_padding _ _ _ Hws Hws').
  reflexivity.
Qed.

Lemma Number_blank_is_zero (ws : string) :
  blank ws -> JS.Number ws = S754_zero false.
Proof.
  intros Hws. unfold JS.Number.
  rewrite <- (app_nil_r (list_ascii_of_string ws)).
  change (@nil ascii) with (@nil ascii ++ @nil ascii)%list at 1.
  rewrite (trim_padding _ [] [] Hws (Forall_nil _)). reflexivity.
Qed.

Lemma append_not_empty (a s b : string) : s <> "" -> (a ++ s ++ b)%string <> "".
Proof.
  intros Hs H. destruct a as [|c a]; [|discriminate].
  destruct s as [|c s]; [congruence | discriminate].
Qed.

(** X8. White space around a field's text does not count: [Number] gives
    the same number with or without it, so a non-empty field validates
    with the padding exactly when it validates without, and is compared
    with the thresholds as the same number. *)
Theorem padding_is_ignored (ws s ws' : string) :
  blank ws -> blank ws' ->
  JS.Number (ws ++ s ++ ws') = JS.Number s
  /\ (s <> "" -> (numeric (ws ++ s ++ ws') <-> numeric s)).
Proof.
  intros Hws Hws'. pose proof (Number_padding ws s ws' Hws Hws') as Heq.
  split; [exact Heq|].
  intros Hs. unfold numeric. rewrite Heq. split.
  - intros [_ Hn]. split; assumption.
  - intros [_ Hn]. split; [apply append_not_empty, Hs | exact Hn].
Qed.

Lemma padding_is_ignored_witness :
  JS.Number (" " ++ "150" ++ "  ") = JS.Number "150".
Proof.
  apply (proj1 (padding_is_ignored " " "150" "  "
                  ltac:(repeat constructor) ltac:(repeat constructor))).
Defined.

Lemma Key_eq_dec (a b : Key) : {a = b} + {a <> b}.
Proof. decide equality. Defined.

(** X9. A field that holds white space only is not empty, so it passes
    validation, and it counts as the number 0: with the other seven fields
    numeric the form validates and raises nothing, whereas the same form
    with that field empty is rejected. *)
Theorem blank_field_validates_as_zero (w : World) (field : Key) :
  blank (get (formData (component w)) field) ->
  get (formData (component w)) field <> "" ->
  (forall k, k <> field -> numeric (get (formData (component w)) k)) ->
  JS.Number (get (formData (component w)) field) = S754_zero false
  /\ validateForm w = (true, w)
  /\ fst (validateForm (handleInputChange field "" w)) = false.
Proof.
  intros Hblank Hne Hothers.
  pose proof (Number_blank_is_zero _ Hblank) as Hzero.
  split; [exact Hzero|]. split.
  - apply validateForm_pass. intros k.
    destruct (Key_eq_dec k field) as [-> | Hk]; [|apply Hothers, Hk].
    split; [exact Hne|]. rewrite Hzero. reflexivity.
  - destruct (fst (validateForm (handleInputChange field "" w))) eqn:Hv;
      [|reflexivity].
    apply validateForm_true in Hv. destruct (Hv field) as [Hne' _].
    exfalso. apply Hne'. simpl. apply get_set_same.
Qed.

Lemma blank_field_validates_as_zero_witness :
  JS.Number (get (formData (component (showing (sample "  " "25")))) Kglucose)
  = S754_zero false
  /\ validateForm (showing (sample "  " "25"))
     = (true, showing (sample "  " "25"))
  /\ fst (validateForm (handleInputChange Kglucose "" (showing (sample "  " "25"))))
     = false.
Proof.
  apply (blank_field_validates_as_zero (showing (sample "  " "25")) Kglucose).
  - repeat constructor.
  - discriminate.
  - intros k Hk. destruct k; try (exfalso; apply Hk; reflexivity);
      (split; [vm_compute; discriminate | vm_compute; reflexivity]).
Defined.

(* --------------------------------------------------------------------- *)
(** *** Rounding never yields NaN *)
(* --------------------------------------------------------------------- *)

Lemma shr_1_nonneg (mrs : shr_record) :
  0 <= shr_m mrs -> 0 <= shr_m (shr_1 mrs).
Proof.
  destruct mrs as [m r s]. simpl.
  destruct m as [|[q|q|]|q]; simpl; lia.
Qed.

Lemma iter_pos_keeps {A : Type} (P : A -> Prop) (f : A -> A) :
  (forall x, P x -> P (f x)) ->
  forall n x, P x -> P (iter_pos f n x).
Proof.
  intros Hf. induction n as [n IH | n IH |]; intros x Hx; simpl.
  - apply IH, IH, Hf, Hx.
  - apply IH, IH, Hx.
  - apply Hf, Hx.
Qed.

Lemma shr_nonneg (mrs : shr_record) (e n : Z) :
  0 <= shr_m mrs -> 0 <= shr_m (fst (shr mrs e n)).
Proof.
  intros Hm. unfold shr. destruct n as [|q|q]; simpl; try exact Hm.
  apply (iter_pos_keeps (fun x => 0 <= shr_m x) shr_1 shr_1_nonneg), Hm.
Qed.

Lemma shr_fexp_nonneg (m e : Z) (l : location) :
  0 <= m -> 0 <= shr_m (fst (shr_fexp JS.prec JS.emax m e l)).
Proof.
  intros Hm. unfold shr_fexp. apply shr_nonneg.
  destruct l as [|[| |]]; exact Hm.
Qed.

Lemma round_nearest_even_nonneg (m : Z) (l : location) :
  0 <= m -> 0 <= round_nearest_even m l.
Proof.
  intros Hm. destruct l as [|[| |]]; simpl; try lia.
  destruct (Z.even m); lia.
Qed.

Lemma binary_round_aux_not_NaN (sx : bool) (mx ex : Z) (lx : location) :
  0 <= mx -> JS.isNaN (binary_round_aux JS.prec JS.emax sx mx ex lx) = false.
Proof.
  intros Hm. unfold binary_round_aux.
  pose proof (shr_fexp_nonneg mx ex lx Hm) as H1.
  destruct (shr_fexp JS.prec JS.emax mx ex lx) as [mrs' e']. simpl in H1.
  pose proof (shr_fexp_nonneg
                (round_nearest_even (shr_m mrs') (loc_of_shr_record mrs'))
                e' loc_Exact (round_nearest_even_nonneg _ _ H1)) as H2.
  destruct (shr_fexp JS.prec JS.emax _ e' loc_Exact) as [mrs'' e'']. simpl in H2.
  destruct (shr_m mrs'') as [|q|q]; [reflexivity | | lia].
  destruct (e'' <=? JS.emax - JS.prec); reflexivity.
Qed.

Lemma binary_normalize_not_NaN (m e : Z) (s : bool) :
  JS.isNaN (binary_normalize JS.prec JS.emax m e s) = false.
Proof.
  unfold binary_normalize, binary_round.
  destruct m as [|q|q]; [reflexivity | |];
    destruct (shl_align _ _ _) as [mz ez];
    apply binary_round_aux_not_NaN; lia.
Qed.

Lemma of_decimal_not_NaN (sign : bool) (m e10 : Z) :
  JS.isNaN (JS.of_decimal sign m e10) = false.
Proof.
  unfold JS.of_decimal.
  destruct m as [|q|q]; try reflexivity.
  destruct e10 as [|k|k]; try apply binary_normalize_not_NaN.
  unfold SFdiv_core_binary.
  set (m' := match _ with Z0 => Z.pos q | Zpos _ => _ | Zneg _ => 0 end).
  assert (Hm' : 0 <= m').
  { unfold m'. destruct (_ - _ - _) as [|s|s]; try lia.
    apply Z.shiftl_nonneg. lia. }
  assert (Hq : 0 <= m' / Z.pow_pos 10 k).
  { apply Z.div_pos; [exact Hm'|].
    rewrite Z.pow_pos_fold. apply Z.pow_pos_nonneg; lia. }
  unfold Z.div in Hq.
  destruct (Z.div_eucl m' (Z.pow_pos 10 k)) as [qq r].
  apply binary_round_aux_not_NaN. exact Hq.
Qed.

Lemma of_Z_not_NaN (z : Z) : JS.isNaN (JS.of_Z z) = false.
Proof. apply binary_normalize_not_NaN. Qed.

(* --------------------------------------------------------------------- *)
(** *** Decimal numerals *)
(* --------------------------------------------------------------------- *)

Ltac by_character c :=
  destruct c as [[] [] [] [] [] [] [] []]; vm_compute;
  repeat split; intros; try reflexivity; try discriminate.

Lemma numeralChar_not_space (c : ascii) :
  numeralChar c = true -> JS.isStrWhiteSpaceChar c = false.
Proof. by_character c. Qed.

Lemma numeralChar_not_radix (c : ascii) :
  numeralChar c = true ->
  (JS.code c =? 120) || (JS.code c =? 88) = false
  /\ (JS.code c =? 111) || (JS.code c =? 79) = false
  /\ (JS.code c =? 98) || (JS.code c =? 66) = false.
Proof. by_character c. Qed.

Lemma numeralChar_not_I (c : ascii) :
  numeralChar c = true -> Ascii.eqb c "I" = false.
Proof. by_character c. Qed.

Lemma digit_numeralChar (c : ascii) :
  JS.isDecimalDigit c = true -> numeralChar c = true.
Proof. unfold numeralChar. intros ->. reflexivity. Qed.

Lemma digit_not_sign (c : ascii) :
  JS.isDecimalDigit c = true ->
  (JS.code c =? 43) = false /\ (JS.code c =? 45) = false
  /\ (JS.code c =? 46) = false.
Proof. by_character c. Qed.

Lemma allDigits_numeral (l : list ascii) :
  allDigits l -> Forall (fun c => numeralChar c = true) l.
Proof. apply Forall_impl, digit_numeralChar. Qed.

Lemma trim_numeral (l : list ascii) :
  Forall (fun c => numeralChar c = true) l -> JS.trim l = l.
Proof.
  intros Hl. apply trim_unpadded.
  revert Hl. apply Forall_impl, numeralChar_not_space.
Qed.

Lemma readNonDecimal_numeral (l : list ascii) :
  Forall (fun c => numeralChar c = true) l -> JS.readNonDecimal l = None.
Proof.
  intros Hl. destruct l as [|z [|p [|d ds]]]; try reflexivity.
  inversion Hl as [|? ? _ Hl']; subst. inversion Hl' as [|? ? Hp _]; subst.
  destruct (numeralChar_not_radix p Hp) as (H16 & H8 & H2).
  unfold JS.readNonDecimal. rewrite H16, H8, H2.
  destruct (JS.code z =? 48); reflexivity.
Qed.

Lemma readStrUnsigned_numeral (sign : bool) (l : list ascii) :
  Forall (fun c => numeralChar c = true) l ->
  JS.readStrUnsigned sign l = JS.readUnsignedDecimal sign l.
Proof.
  intros Hl. unfold JS.readStrUnsigned, JS.list_ascii_eqb.
  destruct l as [|c r]; [reflexivity|].
  inversion Hl as [|? ? Hc _]; subst.
  simpl. rewrite (numeralChar_not_I c Hc). reflexivity.
Qed.

(** [Number] of a numeral that starts with a digit. *)
Lemma Number_unsigned (s : string) (c : ascii) (r : list ascii) :
  list_ascii_of_string s = c :: r ->
  JS.isDecimalDigit c = true ->
  Forall (fun c => numeralChar c = true) r ->
  JS.Number s = JS.readUnsignedDecimal false (c :: r).
Proof.
  intros Hs Hc Hr.
  assert (Hl : Forall (fun c => numeralChar c = true) (c :: r))
    by (constructor; [apply digit_numeralChar, Hc | exact Hr]).
  unfold JS.Number. rewrite Hs, (trim_numeral _ Hl), (readNonDecimal_numeral _ Hl).
  destruct (digit_not_sign c Hc) as (Hplus & Hminus & _).
  rewrite Hplus, Hminus. apply readStrUnsigned_numeral, Hl.
Qed.

(** [Number] of a numeral that starts with a minus sign. *)
Lemma Number_negative (s : string) (r : list ascii) :
  list_ascii_of_string s = "-"%char :: r ->
  Forall (fun c => numeralChar c = true) r ->
  JS.Number s = JS.readUnsignedDecimal true r.
Proof.
  intros Hs Hr.
  assert (Hl : Forall (fun c => numeralChar c = true) ("-"%char :: r))
    by (constructor; [reflexivity | exact Hr]).
  unfold JS.Number. rewrite Hs, (trim_numeral _ Hl), (readNonDecimal_numeral _ Hl).
  change (JS.code "-" =? 43) with false. change (JS.code "-" =? 45) with true.
  cbv iota. apply readStrUnsigned_numeral, Hr.
Qed.

Lemma readDigits_cons (c : ascii) (l : list ascii) (acc cnt : Z) :
  JS.readDigits (c :: l) acc cnt
  = if JS.isDecimalDigit c
    then JS.readDigits l (10 * acc + (JS.code c - 48)) (cnt + 1)
    else (acc, cnt, c :: l).
Proof. reflexivity. Qed.

Lemma readDigits_digits (D : list ascii) (rest : list ascii) :
  allDigits D -> stops rest ->
  forall acc cnt,
    exists v,
      JS.readDigits (D ++ rest) acc cnt
      = (v, cnt + Z.of_nat (List.length D), rest).
Proof.
  intros HD Hrest. induction HD as [|c D Hc _ IH]; intros acc cnt.
  - exists acc. simpl. rewrite Z.add_0_r.
    destruct rest as [|c rest]; [reflexivity|].
    simpl app. rewrite readDigits_cons. simpl in Hrest. rewrite Hrest.
    reflexivity.
  - destruct (IH (10 * acc + (JS.code c - 48)) (cnt + 1)) as [v Hv].
    exists v. simpl app. rewrite readDigits_cons, Hc, Hv. f_equal. f_equal.
    change (List.length (c :: D)) with (S (List.length D)). lia.
Qed.

(** The exponent part as [Number::toString] writes it. *)
Lemma readExponent_written (sg : ascii) (D : list ascii) :
  sg = "+"%char \/ sg = "-"%char ->
  allDigits D -> D <> [] ->
  exists v, JS.readExponent ("e"%char :: sg :: D) = Some v.
Proof.
  intros Hsg HD Hne.
  destruct (readDigits_digits D [] HD I 0 0) as [v Hv].
  rewrite app_nil_r in Hv.
  assert (Hlen : (0 <? 0 + Z.of_nat (List.length D)) = true).
  { apply Z.ltb_lt. destruct D; [congruence | simpl List.length; lia]. }
  destruct Hsg as [-> | ->].
  - exists v. unfold JS.readExponent.
    change (JS.code "e" =? 101) with true. simpl orb. cbv iota.
    change (JS.code "+" =? 43) with true. cbv iota.
    rewrite Hv, Hlen. reflexivity.
  - exists (- v). unfold JS.readExponent.
    change (JS.code "e" =? 101) with true. simpl orb. cbv iota.
    change (JS.code "-" =? 43) with false.
    change (JS.code "-" =? 45) with true. cbv iota.
    rewrite Hv, Hlen. reflexivity.
Qed.

Lemma readUnsignedDecimal_written (sign : bool) (I tail : list ascii) :
  allDigits I -> I <> [] -> writtenTail tail ->
  JS.isNaN (JS.readUnsignedDecimal sign (I ++ tail)) = false.
Proof.
  intros HI Hne (F & E & -> & HF & HE).
  assert (HstopE : stops E).
  { destruct HE as [-> | (sg & D & -> & _)]; [exact Logic.I | reflexivity]. }
  assert (HexpE : exists v, JS.readExponent E = Some v).
  { destruct HE as [-> | (sg & D & -> & Hsg & HD & HDne)].
    - exists 0. reflexivity.
    - apply readExponent_written; assumption. }
  destruct HexpE as [ve Hve].
  assert (HstopFE : stops (F ++ E)).
  { destruct HF as [-> | (D & -> & _)]; [exact HstopE | reflexivity]. }
  destruct (readDigits_digits I (F ++ E) HI HstopFE 0 0) as [ip Hip].
  assert (Hni : 0 < 0 + Z.of_nat (List.length I)).
  { destruct I; [congruence | simpl List.length; lia]. }
  unfold JS.readUnsignedDecimal. rewrite Hip. cbv beta iota zeta.
  destruct HF as [-> | (D & -> & HD)].
  - simpl app.
    assert (Hsame : match E with
                    | [] => (ip, 0, E)
                    | c :: r => if JS.code c =? 46 then JS.readDigits r ip 0
                                else (ip, 0, E)
                    end = (ip, 0, E)).
    { destruct HE as [-> | (sg & D & -> & _)]; reflexivity. }
    rewrite Hsame. cbv beta iota zeta.
    replace (0 <? 0 + Z.of_nat (List.length I) + 0) with true
      by (symmetry; apply Z.ltb_lt; lia).
    destruct (JS.readExponent E); [apply of_decimal_not_NaN | discriminate Hve].
  - simpl app. cbv beta iota.
    replace (JS.code "."%char =? 46) with true by reflexivity.
    destruct (readDigits_digits D E HD HstopE ip 0) as [m Hm].
    rewrite Hm. cbv beta iota zeta.
    replace (0 <? 0 + Z.of_nat (List.length I) + (0 + Z.of_nat (List.length D)))
      with true by (symmetry; apply Z.ltb_lt; lia).
    destruct (JS.readExponent E); [apply of_decimal_not_NaN | discriminate Hve].
Qed.

(* --------------------------------------------------------------------- *)
(** *** Printed digits *)
(* --------------------------------------------------------------------- *)

Lemma uint_allDigits (d : Decimal.uint) :
  allDigits (list_ascii_of_string (NilEmpty.string_of_uint d)).
Proof. induction d; simpl; constructor; (reflexivity || assumption). Qed.

Lemma NilZero_allDigits (d : Decimal.uint) :
  allDigits (list_ascii_of_string (NilZero.string_of_uint d))
  /\ list_ascii_of_string (NilZero.string_of_uint d) <> [].
Proof.
  unfold NilZero.string_of_uint. destruct d;
    try (split; [apply (uint_allDigits (_ _)) | simpl; discriminate]).
  split; [repeat constructor | discriminate].
Qed.

Lemma digitString_allDigits (z : Z) :
  allDigits (list_ascii_of_string (JS.digitString z))
  /\ list_ascii_of_string (JS.digitString z) <> [].
Proof. apply NilZero_allDigits. Qed.

Lemma zeros_allDigits (n : nat) :
  allDigits (list_ascii_of_string (JS.zeros n)).
Proof. induction n; simpl; constructor; (reflexivity || assumption). Qed.

Lemma substring_allDigits (s : string) :
  allDigits (list_ascii_of_string s) ->
  forall a b, allDigits (list_ascii_of_string (substring a b s)).
Proof.
  induction s as [|c s IH]; intros Hs a b.
  - destruct a, b; constructor.
  - inversion Hs as [|? ? Hc Hs']; subst.
    destruct a as [|a]; simpl.
    + destruct b as [|b]; [constructor|].
      simpl. constructor; [exact Hc | apply IH, Hs'].
    + apply IH, Hs'.
Qed.

Lemma substring_head_nonempty (s : string) (b : nat) :
  list_ascii_of_string s <> [] ->
  list_ascii_of_string (substring 0 (S b) s) <> [].
Proof. destruct s; simpl; [congruence | discriminate]. Qed.

Lemma allDigits_app (a b : list ascii) :
  allDigits a -> allDigits b -> allDigits (a ++ b).
Proof. intros Ha Hb. apply Forall_app. split; assumption. Qed.

Lemma exponentString_written (n : Z) :
  exists sg D,
    list_ascii_of_string (JS.exponentString n) = "e"%char :: sg :: D
    /\ (sg = "+"%char \/ sg = "-"%char)
    /\ allDigits D /\ D <> [].
Proof.
  unfold JS.exponentString.
  destruct (digitString_allDigits (Z.abs (n - 1))) as [HD Hne].
  destruct (n - 1 <? 0).
  - exists "-"%char, (list_ascii_of_string (JS.digitString (Z.abs (n - 1)))).
    repeat split; auto.
  - exists "+"%char, (list_ascii_of_string (JS.digitString (Z.abs (n - 1)))).
    repeat split; auto.
Qed.

(** Every finite number is written as digits followed by an optional
    fraction and an optional exponent. *)
Lemma formatDigits_written (s n k : Z) :
  exists I tail,
    list_ascii_of_string (JS.formatDigits s n k) = (I ++ tail)%list
    /\ allDigits I /\ I <> [] /\ writtenTail tail.
Proof.
  destruct (digitString_allDigits s) as [Hds Hne].
  destruct (exponentString_written n) as (sg & D & HE & Hsg & HD & HDne).
  unfold JS.formatDigits.
  destruct ((k <=? n) && (n <=? 21)).
  { exists (list_ascii_of_string (JS.digitString s ++ JS.zeros (Z.to_nat (n - k)))), [].
    split; [rewrite app_nil_r; reflexivity|].
    rewrite list_ascii_of_string_app.
    split; [apply allDigits_app; [exact Hds | apply zeros_allDigits]|].
    split.
    - destruct (list_ascii_of_string (JS.digitString s)); [congruence | discriminate].
    - exists [], []. repeat split; auto. }
  destruct ((0 <? n) && (n <=? 21)) eqn:Hn.
  { exists (list_ascii_of_string (substring 0 (Z.to_nat n) (JS.digitString s))),
      ("."%char :: list_ascii_of_string
                      (substring (Z.to_nat n) (Z.to_nat (k - n)) (JS.digitString s))).
    split; [rewrite list_ascii_of_string_app; reflexivity|].
    split; [apply substring_allDigits, Hds|].
    split.
    - apply andb_true_iff in Hn as [Hn _]. apply Z.ltb_lt in Hn.
      destruct (Z.to_nat n) as [|b] eqn:Hb; [lia|].
      apply substring_head_nonempty, Hne.
    - eexists _, []. rewrite app_nil_r. split; [reflexivity|].
      split; [right; eexists; split; [reflexivity|apply substring_allDigits, Hds]
             | left; reflexivity]. }
  destruct ((-6 <? n) && (n <=? 0)).
  { exists ["0"%char],
      ("."%char :: list_ascii_of_string
                      (JS.zeros (Z.to_nat (- n)) ++ JS.digitString s)).
    split; [reflexivity|].
    split; [repeat constructor|].
    split; [discriminate|].
    eexists _, []. rewrite app_nil_r. split; [reflexivity|].
    split; [|left; reflexivity].
    right. eexists. split; [reflexivity|].
    rewrite list_ascii_of_string_app.
    apply allDigits_app; [apply zeros_allDigits | exact Hds]. }
  destruct (k =? 1).
  { exists (list_ascii_of_string (JS.digitString s)),
      (list_ascii_of_string (JS.exponentString n)).
    split; [apply list_ascii_of_string_app|].
    split; [exact Hds|]. split; [exact Hne|].
    exists [], (list_ascii_of_string (JS.exponentString n)).
    split; [reflexivity|]. split; [left; reflexivity|].
    right. exists sg, D. repeat split; auto. }
  exists (list_ascii_of_string (substring 0 1 (JS.digitString s))),
    (("."%char :: list_ascii_of_string
                     (substring 1 (Z.to_nat (k - 1)) (JS.digitString s)))
     ++ list_ascii_of_string (JS.exponentString n))%list.
  split.
  { rewrite !list_ascii_of_string_app. reflexivity. }
  split; [apply substring_allDigits, Hds|].
  split; [apply substring_head_nonempty, Hne|].
  eexists _, _. split; [reflexivity|].
  split.
  - right. eexists. split; [reflexivity | apply substring_allDigits, Hds].
  - right. exists sg, D. repeat split; auto.
Qed.

Lemma writtenTail_numeral (tail : list ascii) :
  writtenTail tail -> Forall (fun c => numeralChar c = true) tail.
Proof.
  intros (F & E & -> & HF & HE). apply Forall_app. split.
  - destruct HF as [-> | (D & -> & HD)]; [constructor|].
    constructor; [reflexivity | apply allDigits_numeral, HD].
  - destruct HE as [-> | (sg & D & -> & Hsg & HD & _)]; [constructor|].
    constructor; [reflexivity|].
    constructor; [destruct Hsg as [-> | ->]; reflexivity|].
    apply allDigits_numeral, HD.
Qed.

Lemma toString_finite_numeric (sg : bool) (m : BinNums.positive) (e : Z) :
  numeric (JS.toString (S754_finite sg m e)).
Proof.
  unfold JS.toString.
  destruct (JS.shortest 16 m e 1) as [[s n] k].
  destruct (formatDigits_written s n k) as (I & tail & Hfmt & HI & Hne & Htail).
  pose proof (writtenTail_numeral tail Htail) as Hnum.
  destruct I as [|c I']; [congruence|].
  inversion HI as [|? ? Hc HI']; subst.
  assert (Hr : Forall (fun c => numeralChar c = true) (I' ++ tail)).
  { apply Forall_app. split; [apply allDigits_numeral, HI' | exact Hnum]. }
  destruct sg.
  - split; [discriminate|].
    rewrite (Number_negative _ ((c :: I') ++ tail)).
    + apply readUnsignedDecimal_written; assumption.
    + simpl. rewrite Hfmt. reflexivity.
    + constructor; [apply digit_numeralChar, Hc | exact Hr].
  - split.
    + intros Hempty. simpl in Hempty. rewrite Hempty in Hfmt. discriminate.
    + rewrite (Number_unsigned _ c (I' ++ tail)); [|exact Hfmt | exact Hc | exact Hr].
      apply (readUnsignedDecimal_written false (c :: I') tail); assumption.
Qed.

(** X10. The text a slider writes into a field always validates: for
    every number [x] other than NaN, [x.toString()] is non-empty and
    [Number] of it is not NaN, so after the slider's edit that field is
    numeric. Only a slider reporting NaN would write text that fails. *)
Theorem slider_text_always_validates (w : World) (field : Key)
        (x : JS.number) (rest : list JS.number) :
  exists w',
    handleSliderChange field (x :: rest) w = Some w'
    /\ (numeric (get (formData (component w')) field)
        <-> JS.isNaN x = false).
Proof.
  eexists. split; [reflexivity|]. simpl. rewrite get_set_same.
  destruct x as [s | s | | sg m e].
  - split; [reflexivity|]. intros _. split; [discriminate | reflexivity].
  - split; [reflexivity|]. intros _.
    destruct s; (split; [discriminate | reflexivity]).
  - split; [|discriminate]. intros [_ Hnan]. exact Hnan.
  - split; [reflexivity|]. intros _. apply toString_finite_numeric.
Qed.

Lemma slider_text_always_validates_witness :
  exists w',
    handleSliderChange Kbmi [gridPoint Kbmi 165] initial = Some w'
    /\ numeric (get (formData (component w')) Kbmi).
Proof.
  destruct (slider_text_always_validates initial Kbmi (gridPoint Kbmi 165) [])
    as (w' & Hrun & Hiff).
  exists w'. split; [exact Hrun|]. apply Hiff. vm_compute. reflexivity.
Defined.

(* --------------------------------------------------------------------- *)
(** *** Plain integers *)
(* --------------------------------------------------------------------- *)

Lemma readDigits_uint (d : Decimal.uint) (rest : list ascii) :
  forall acc cnt,
    JS.readDigits (list_ascii_of_string (NilEmpty.string_of_uint d) ++ rest) acc cnt
    = JS.readDigits rest (uintAcc d acc) (cnt + Z.of_nat (Decimal.nb_digits d)).
Proof.
  induction d as [|d IH|d IH|d IH|d IH|d IH|d IH|d IH|d IH|d IH|d IH];
    intros acc cnt;
    [ simpl; rewrite Z.add_0_r; reflexivity | .. ];
    simpl NilEmpty.string_of_uint; simpl list_ascii_of_string; simpl app;
    rewrite readDigits_cons;
    match goal with
    | |- context [JS.isDecimalDigit ?c] =>
        replace (JS.isDecimalDigit c) with true by reflexivity
    end;
    rewrite IH; cbn [uintAcc Decimal.nb_digits];
    match goal with
    | |- context [JS.code ?c] =>
        let v := eval vm_compute in (JS.code c) in
        change (JS.code c) with v
    end;
    f_equal; solve [lia | f_equal; lia].
Qed.

Lemma uintAcc_of_uint_acc (d : Decimal.uint) :
  forall acc, Zpos (Pos.of_uint_acc d acc) = uintAcc d (Zpos acc).
Proof.
  induction d; intros acc; cbn [Pos.of_uint_acc uintAcc]; try reflexivity;
    rewrite IHd; f_equal; lia.
Qed.

Lemma uintAcc_of_uint (d : Decimal.uint) :
  Z.of_N (Pos.of_uint d) = uintAcc d 0.
Proof.
  induction d; cbn [Pos.of_uint uintAcc Z.of_N]; try reflexivity;
    try exact IHd; rewrite uintAcc_of_uint_acc; reflexivity.
Qed.

Lemma Number_digitString_pos (p : BinNums.positive) :
  JS.Number (JS.digitString (Zpos p)) = JS.of_Z (Zpos p).
Proof.
  unfold JS.digitString. simpl Z.to_N. simpl N.to_uint.
  pose proof (DecimalPos.Unsigned.to_uint_nonnil p) as Hnil.
  pose proof (DecimalPos.Unsigned.of_to p) as Hval.
  set (d := Pos.to_uint p) in *.
  assert (Hstr : NilZero.string_of_uint d = NilEmpty.string_of_uint d)
    by (destruct d; [congruence | reflexivity ..]).
  rewrite Hstr.
  pose proof (uint_allDigits d) as Hdig.
  assert (Hlen : 0 < Z.of_nat (Decimal.nb_digits d))
    by (destruct d; [congruence | simpl; lia ..]).
  destruct (list_ascii_of_string (NilEmpty.string_of_uint d)) as [|c r] eqn:Hl.
  { destruct d; [congruence | discriminate ..]. }
  inversion Hdig as [|? ? Hc Hr]; subst.
  rewrite (Number_unsigned _ c r Hl Hc (allDigits_numeral r Hr)).
  unfold JS.readUnsignedDecimal.
  rewrite <- Hl, <- (app_nil_r (list_ascii_of_string _)), readDigits_uint.
  simpl JS.readDigits. cbv beta iota zeta.
  match goal with
  | |- context [0 <? ?x] =>
      replace (0 <? x) with true by (symmetry; apply Z.ltb_lt; lia)
  end.
  simpl JS.readExponent. cbv beta iota.
  rewrite <- uintAcc_of_uint, Hval. simpl Z.of_N.
  unfold JS.of_decimal, JS.of_Z. simpl Z.sub.
  rewrite Z.pow_0_r, Z.mul_1_r. reflexivity.
Qed.

(** X11. A field that holds a non-negative integer written in decimal
    digits parses to exactly that integer, rounded to the nearest number,
    and passes validation: [Number] reads back what [digitString] prints. *)
Theorem integer_text_parses_to_the_integer (z : Z) :
  0 <= z ->
  JS.Number (JS.digitString z) = JS.of_Z z
  /\ numeric (JS.digitString z).
Proof.
  intros Hz.
  assert (Hnum : JS.Number (JS.digitString z) = JS.of_Z z).
  { destruct z as [|p|p]; [reflexivity | apply Number_digitString_pos | lia]. }
  split; [exact Hnum|]. split.
  - destruct (digitString_allDigits z) as [_ Hne].
    intros Hempty. rewrite Hempty in Hne. apply Hne. reflexivity.
  - rewrite Hnum. apply of_Z_not_NaN.
Qed.

Lemma integer_text_parses_to_the_integer_witness :
  JS.Number (JS.digitString 120) = JS.of_Z 120
  /\ numeric (JS.digitString 120).
Proof. apply (integer_text_parses_to_the_integer 120). lia. Defined.

(* --------------------------------------------------------------------- *)
(** *** The number of digits of an integer *)
(* --------------------------------------------------------------------- *)

Lemma length_string_of_uint (d : Decimal.uint) :
  String.length (NilEmpty.string_of_uint d) = Decimal.nb_digits d.
Proof. induction d; simpl; congruence. Qed.

Lemma uintAcc_bounds (d : Decimal.uint) :
  forall acc,
    0 <= acc ->
    acc * 10 ^ Z.of_nat (Decimal.nb_digits d) <= uintAcc d acc
    /\ uintAcc d acc < (acc + 1) * 10 ^ Z.of_nat (Decimal.nb_digits d).
Proof.
  induction d as [|d IH|d IH|d IH|d IH|d IH|d IH|d IH|d IH|d IH|d IH];
    intros acc Hacc;
    [ simpl; lia | .. ];
    cbn [uintAcc Decimal.nb_digits];
    rewrite Nat2Z.inj_succ, Z.pow_succ_r by lia;
    assert (Hpow : 0 < 10 ^ Z.of_nat (Decimal.nb_digits d))
      by (apply Z.pow_pos_nonneg; lia);
    match goal with
    | |- context [uintAcc d ?a] => destruct (IH a ltac:(lia)) as [Hlo Hhi]
    end;
    split; nia.
Qed.

Lemma nzhead_not_D0 (d d' : Decimal.uint) : Decimal.nzhead d <> Decimal.D0 d'.
Proof. induction d; simpl; try discriminate; assumption. Qed.

Lemma to_uint_leading (p : BinNums.positive) :
  match Pos.to_uint p with
  | Decimal.Nil | Decimal.D0 _ => False
  | _ => True
  end.
Proof.
  pose proof (DecimalPos.Unsigned.to_of (Pos.to_uint p)) as Hnorm.
  rewrite DecimalPos.Unsigned.of_to in Hnorm. simpl in Hnorm.
  pose proof (DecimalPos.Unsigned.to_uint_nonzero p) as Hnz.
  destruct (Pos.to_uint p) as [|d| | | | | | | | |]; try exact I.
  - discriminate Hnorm.
  - unfold Decimal.unorm in Hnorm. simpl in Hnorm.
    destruct (Decimal.nzhead d) eqn:Hd;
      try (symmetry in Hnorm; exact (nzhead_not_D0 d _ (eq_trans Hd Hnorm))).
    apply Hnz. exact Hnorm.
Qed.

(** An integer between [10^(c-1)] and [10^c] is printed with [c] digits. *)
Lemma digitCount_bounds (z c : Z) :
  10 ^ (c - 1) <= z < 10 ^ c -> 0 < z -> JS.digitCount z = c.
Proof.
  intros [Hlo Hhi] Hz. destruct z as [|p|p]; try lia.
  unfold JS.digitCount, JS.digitString. simpl Z.to_N. simpl N.to_uint.
  pose proof (to_uint_leading p) as Hlead.
  pose proof (DecimalPos.Unsigned.of_to p) as Hval.
  apply (f_equal Z.of_N) in Hval. rewrite uintAcc_of_uint in Hval.
  simpl Z.of_N in Hval.
  set (d := Pos.to_uint p) in *.
  assert (Hstr : NilZero.string_of_uint d = NilEmpty.string_of_uint d)
    by (destruct d; [contradiction | reflexivity ..]).
  rewrite Hstr, length_string_of_uint.
  assert (Hb : 10 ^ (Z.of_nat (Decimal.nb_digits d) - 1) <= Zpos p
               < 10 ^ Z.of_nat (Decimal.nb_digits d)).
  { rewrite <- Hval.
    destruct d as [|d'|d'|d'|d'|d'|d'|d'|d'|d'|d']; try contradiction;
      cbn [uintAcc Decimal.nb_digits];
      rewrite Nat2Z.inj_succ;
      replace (Z.succ (Z.of_nat (Decimal.nb_digits d')) - 1)
        with (Z.of_nat (Decimal.nb_digits d')) by lia;
      rewrite Z.pow_succ_r by lia;
      assert (Hpow : 0 < 10 ^ Z.of_nat (Decimal.nb_digits d'))
        by (apply Z.pow_pos_nonneg; lia);
      match goal with
      | |- context [uintAcc d' ?a] =>
          destruct (uintAcc_bounds d' a ltac:(lia)) as [Hl Hh]
      end;
      split; nia. }
  set (nb := Z.of_nat (Decimal.nb_digits d)) in *.
  assert (Hnb : 0 <= nb) by (unfold nb; lia).
  assert (Hc : 0 <= c).
  { destruct (Z.le_gt_cases 0 c) as [H|H]; [exact H|].
    rewrite (Z.pow_neg_r 10 c H) in Hhi. lia. }
  assert (H1 : c - 1 < nb).
  { destruct (Z.le_gt_cases 0 (c - 1)) as [H|H]; [|lia].
    apply (Z.pow_lt_mono_r_iff 10); lia. }
  assert (H2 : nb - 1 < c).
  { destruct (Z.le_gt_cases 0 (nb - 1)) as [H|H]; [|lia].
    apply (Z.pow_lt_mono_r_iff 10); lia. }
  lia.
Qed.

Lemma decimalExponent_checked (m : BinNums.positive) (e n : Z) :
  exponentCheck m e n = true -> JS.decimalExponent m e = n.
Proof.
  unfold exponentCheck, JS.decimalExponent.
  set (num := Zpos m * 2 ^ Z.max e 0).
  set (den := 2 ^ Z.max (- e) 0).
  intros H. apply andb_true_iff in H as [H Hup].
  apply andb_true_iff in H as [Hn Hlow].
  apply Z.leb_le in Hn, Hlow. apply Z.ltb_lt in Hup.
  assert (Hden : 0 < den) by (apply Z.pow_pos_nonneg; lia).
  assert (Hnum : 0 < num).
  { unfold num. apply Z.mul_pos_pos; [lia | apply Z.pow_pos_nonneg; lia]. }
  assert (Hlow' : 10 ^ (n + 399) * den <= num * 10 ^ 400).
  { set (b := Z.max (1 - n) 0) in *. set (a := Z.max (n - 1) 0) in *.
    assert (Hp : 0 < 10 ^ (400 - b)) by (apply Z.pow_pos_nonneg; lia).
    replace (10 ^ (n + 399)) with (10 ^ a * 10 ^ (400 - b))
      by (rewrite <- Z.pow_add_r by lia; f_equal; lia).
    replace (10 ^ 400) with (10 ^ b * 10 ^ (400 - b))
      by (rewrite <- Z.pow_add_r by lia; f_equal; lia).
    nia. }
  assert (Hup' : num * 10 ^ 400 < 10 ^ (n + 400) * den).
  { set (c := Z.max (- n) 0) in *. set (d := Z.max n 0) in *.
    assert (Hp : 0 < 10 ^ (400 - c)) by (apply Z.pow_pos_nonneg; lia).
    replace (10 ^ (n + 400)) with (10 ^ d * 10 ^ (400 - c))
      by (rewrite <- Z.pow_add_r by lia; f_equal; lia).
    replace (10 ^ 400) with (10 ^ c * 10 ^ (400 - c))
      by (rewrite <- Z.pow_add_r by lia; f_equal; lia).
    nia. }
  assert (Hq : 10 ^ (n + 400 - 1) <= num * 10 ^ 400 / den < 10 ^ (n + 400)).
  { replace (n + 400 - 1) with (n + 399) by lia. split.
    - apply Z.div_le_lower_bound; [exact Hden | lia].
    - apply Z.div_lt_upper_bound; [exact Hden | lia]. }
  rewrite (digitCount_bounds _ (n + 400) Hq).
  - lia.
  - assert (0 < 10 ^ (n + 400 - 1)) by (apply Z.pow_pos_nonneg; lia). lia.
Qed.

Lemma shortest_With (fuel : nat) (m : BinNums.positive) (e : Z) :
  forall k,
    JS.shortest fuel m e k = shortestWith (JS.decimalExponent m e) fuel m e k.
Proof.
  induction fuel as [|fuel IH]; intros k.
  - reflexivity.
  - change (JS.shortest (S fuel) m e k)
      with (match JS.shortestAt m e k with
            | Some (s, n) => (s, n, k)
            | None => JS.shortest fuel m e (k + 1)
            end).
    change (shortestWith (JS.decimalExponent m e) (S fuel) m e k)
      with (match shortestAtWith (JS.decimalExponent m e) m e k with
            | Some (s, n) => (s, n, k)
            | None => shortestWith (JS.decimalExponent m e) fuel m e (k + 1)
            end).
    rewrite IH. reflexivity.
Qed.

Lemma toStringFast_sound (x : JS.number) (s : string) :
  toStringFast x = Some s -> JS.toString x = s.
Proof.
  destruct x as [sg | sg | | sg m e];
    try (intros [= <-]; reflexivity).
  unfold toStringFast, JS.toString.
  destruct (find (exponentCheck m e) exponentCandidates) as [n|] eqn:Hfind;
    [|discriminate].
  apply find_some in Hfind as [_ Hn].
  apply decimalExponent_checked in Hn.
  rewrite shortest_With, Hn.
  destruct (shortestWith n 16 m e 1) as [[s' n'] k].
  intros [= <-]. reflexivity.
Qed.

(* --------------------------------------------------------------------- *)
(** *** [Number::toString] at sample inputs *)
(* --------------------------------------------------------------------- *)

Lemma toString_checked (sg : bool) (m : BinNums.positive) (e n : Z) :
  exponentCheck m e n = true ->
  JS.toString (S754_finite sg m e)
  = let '(s, n', k) := shortestWith n 16 m e 1 in
    ((if sg then "-" else "") ++ JS.formatDigits s n' k)%string.
Proof.
  intros Hn. apply decimalExponent_checked in Hn.
  unfold JS.toString. rewrite shortest_With, Hn. reflexivity.
Qed.

Ltac toString_by_check :=
  match goal with
  | |- JS.toString ?x = _ =>
      let v := eval vm_compute in x in
      replace x with v by (vm_compute; reflexivity);
      lazymatch v with
      | S754_finite ?sg ?m ?e =>
          let n := eval vm_compute in (JS.decimalExponent m e) in
          rewrite (toString_checked sg m e n) by (vm_compute; reflexivity);
          vm_compute; reflexivity
      | _ => vm_compute; reflexivity
      end
  end.

Ltac toString_list :=
  cbv beta iota delta [map];
  repeat match goal with
         | |- _ :: _ = _ :: _ => apply (f_equal2 cons)
         | |- JS.toString _ = _ => toString_by_check
         | |- [] = [] => reflexivity
         end.

Example toString_samples :
  map (fun s => JS.toString (JS.Number s))
      ["26.5"; "0.001"; "120"; "2.50"; "1e21"; "1e20"; "1.5e-7"; "0.000001";
       "-12.75"; "0.30000000000000004"; "5e-324"; "1.7976931348623157e308";
       "abc"; "-0"; "1e999"]
  = ["26.5"; "0.001"; "120"; "2.5"; "1e+21"; "100000000000000000000";
     "1.5e-7"; "0.000001"; "-12.75"; "0.30000000000000004"; "5e-324";
     "1.7976931348623157e+308"; "NaN"; "0"; "Infinity"].
Proof. toString_list. Qed.

(** The steps of the bmi and diabetesPedigree sliders print as written. *)
Example toString_steps :
  JS.toString (step (fieldRanges Kbmi)) = "0.1"
  /\ JS.toString (step (fieldRanges KdiabetesPedigree)) = "0.001"
  /\ JS.toString (max (fieldRanges KdiabetesPedigree)) = "2.5".
Proof. repeat split; toString_by_check. Qed.

(* ===================================================================== *)
(** ** Further properties: the positions of the sliders *)
(* ===================================================================== *)

Lemma number_eqb_eq (x y : JS.number) : JS.number_eqb x y = true -> x = y.
Proof.
  destruct x as [a | a | | a m e], y as [b | b | | b m' e']; simpl;
    try discriminate; try reflexivity.
  - intros H. apply Bool.eqb_prop in H. congruence.
  - intros H. apply Bool.eqb_prop in H. congruence.
  - intros H. apply andb_true_iff in H as [H He].
    apply andb_true_iff in H as [Hs Hm].
    apply Bool.eqb_prop in Hs. apply Pos.eqb_eq in Hm. apply Z.eqb_eq in He.
    congruence.
Qed.

Lemma In_upto (n i : Z) : 0 <= i <= n -> In i (upto n).
Proof.
  intros Hi. unfold upto. apply in_map_iff.
  exists (Z.to_nat i). split; [lia|]. apply in_seq. lia.
Qed.

Lemma forallb_upto (f : Z -> bool) (n i : Z) :
  forallb f (upto n) = true -> 0 <= i <= n -> f i = true.
Proof.
  intros Hall Hi. rewrite forallb_forall in Hall. apply Hall, In_upto, Hi.
Qed.

Lemma gridCheck_all (field : Key) :
  forallb (gridCheck field) (upto (gridSize field)) = true.
Proof. destruct field; vm_compute; reflexivity. Qed.

Lemma thresholdCheck_all :
  forallb glucoseCheck (upto 300) = true /\ forallb bmiCheck (upto 500) = true.
Proof. split; vm_compute; reflexivity. Qed.

Lemma gridPoint_printed (field : Key) (i : Z) :
  0 <= i <= gridSize field ->
  JS.Number (JS.toString (gridPoint field i)) = gridPoint field i
  /\ orZero (gridPoint field i) = gridPoint field i
  /\ JS.toString (gridPoint field i) <> ""
  /\ JS.isNaN (gridPoint field i) = false
  /\ inRange field (gridPoint field i) = true.
Proof.
  intros Hi.
  pose proof (forallb_upto _ _ i (gridCheck_all field) Hi) as Hc.
  unfold gridCheck in Hc.
  destruct (toStringFast (gridPoint field i)) as [s|] eqn:Hs; [|discriminate].
  apply toStringFast_sound in Hs. rewrite Hs.
  repeat (apply andb_true_iff in Hc as [Hc ?]).
  split; [apply number_eqb_eq; assumption|].
  split; [apply number_eqb_eq; assumption|].
  split; [|split; [|assumption]].
  - intros ->. discriminate.
  - destruct (JS.isNaN (gridPoint field i)); [discriminate | reflexivity].
Qed.

Lemma gridPoint_numeric (field : Key) (i : Z) :
  0 <= i <= gridSize field -> numeric (JS.toString (gridPoint field i)).
Proof.
  intros Hi. destruct (gridPoint_printed field i Hi) as (Hn & _ & Hne & Hnan & _).
  split; [exact Hne|]. rewrite Hn. exact Hnan.
Qed.

(** X12. Slider and text stay in step. The positions of a field's slider
    are its minimum plus a whole number of steps, up to its maximum. After
    the slider is dragged to any of them, the text written into the field
    parses back to that very number, the slider is handed that number
    again on the next render, the field validates, and the number lies
    within the field's range. *)
Theorem slider_positions_round_trip (field : Key) :
  (gridPoint field 0 = min (fieldRanges field)
   /\ gridPoint field (gridSize field) = max (fieldRanges field)
   /\ JS.of_decimal false 1 (- decimals field) = step (fieldRanges field))
  /\ (forall w i,
        0 <= i <= gridSize field ->
        exists w',
          run w (SliderChange field [gridPoint field i]) = Some w'
          /\ JS.Number (get (formData (component w')) field) = gridPoint field i
          /\ sliderValue field (formData (component w')) = [gridPoint field i]
          /\ numeric (get (formData (component w')) field)
          /\ inRange field (gridPoint field i) = true).
Proof.
  split.
  - destruct field; repeat split; vm_compute; reflexivity.
  - intros w i Hi.
    destruct (gridPoint_printed field i Hi) as (Hn & Hz & _ & _ & Hin).
    eexists. split; [reflexivity|]. simpl component. simpl formData.
    unfold sliderValue. rewrite get_set_same, Hn, Hz.
    split; [reflexivity|]. split; [reflexivity|].
    split; [apply gridPoint_numeric, Hi | exact Hin].
Qed.

Lemma slider_positions_round_trip_witness :
  exists w',
    run initial (SliderChange Kbmi [gridPoint Kbmi 165]) = Some w'
    /\ JS.Number (get (formData (component w')) Kbmi) = gridPoint Kbmi 165
    /\ sliderValue Kbmi (formData (component w')) = [gridPoint Kbmi 165]
    /\ numeric (get (formData (component w')) Kbmi)
    /\ inRange Kbmi (gridPoint Kbmi 165) = true.
Proof.
  apply (proj2 (slider_positions_round_trip Kbmi) initial 165).
  vm_compute. split; discriminate.
Defined.

Lemma runAll_step (w w1 : World) (ev : Event) (evs : list Event) :
  run w ev = Some w1 -> runAll w (ev :: evs) = runAll w1 evs.
Proof.
  intros Hrun.
  change (runAll w (ev :: evs))
    with (match run w ev with
          | Some w' => runAll w' evs
          | None => None
          end).
  rewrite Hrun. reflexivity.
Qed.

(** X13. With the sliders the rule is the decimal one. From any reachable
    idle page whose other six fields are numeric, dragging glucose to
    position [i] (that is [i] mg/dL) and bmi to position [j] (that is
    [10 + j/10]), clicking and waiting out the delay gives a positive
    prediction exactly when [i > 140] or [j > 200], that is when the bmi
    shown is above 30.0. *)
Theorem prediction_at_slider_positions (w : World) (i j : Z) :
  reachable w ->
  isSubmitting (component w) = false ->
  (forall k, k <> Kglucose -> k <> Kbmi ->
             numeric (get (formData (component w)) k)) ->
  0 <= i <= 300 ->
  0 <= j <= 500 ->
  exists w',
    runAll w [SliderChange Kglucose [gridPoint Kglucose i];
              SliderChange Kbmi [gridPoint Kbmi j];
              Click; Elapse 1500; Timeout]
    = Some w'
    /\ prediction (result (component w'))
       = Some (if (140 <? i) || (200 <? j) then positive else negative).
Proof.
  intros Hw Hsub Hothers Hi Hj.
  set (g := gridPoint Kglucose i). set (b := gridPoint Kbmi j).
  set (w1 := handleInputChange Kglucose (JS.toString g) w).
  set (w2 := handleInputChange Kbmi (JS.toString b) w1).
  assert (Hr1 : run w (SliderChange Kglucose [g]) = Some w1) by reflexivity.
  assert (Hr2 : run w1 (SliderChange Kbmi [b]) = Some w2) by reflexivity.
  assert (Hw2 : reachable w2).
  { apply (reachable_run w1 (SliderChange Kbmi [b]) w2); [|exact Hr2].
    apply (reachable_run w (SliderChange Kglucose [g]) w1); [exact Hw | exact Hr1]. }
  assert (Hs2 : isSubmitting (component w2) = false) by exact Hsub.
  assert (Hg : glucose (formData (component w2)) = JS.toString g) by reflexivity.
  assert (Hb : bmi (formData (component w2)) = JS.toString b) by reflexivity.
  assert (Hall : allNumeric (formData (component w2))).
  { intros k.
    destruct (Key_eq_dec k Kbmi) as [-> | Hkb].
    - change (get (formData (component w2)) Kbmi) with (JS.toString b).
      apply (gridPoint_numeric Kbmi j Hj).
    - destruct (Key_eq_dec k Kglucose) as [-> | Hkg].
      + change (get (formData (component w2)) Kglucose) with (JS.toString g).
        apply (gridPoint_numeric Kglucose i Hi).
      + unfold w2, w1. simpl component. simpl formData.
        rewrite !get_set_other by assumption. apply Hothers; assumption. }
  assert (Hr3 : run w2 Click = Some (handlePredict w2))
    by (apply Click_submits, Hs2).
  assert (Hr4 : run (handlePredict w2) (Elapse 1500)
                = Some (advance 1500 (handlePredict w2))) by reflexivity.
  assert (Hrun : runAll w2 (Click :: [Elapse 1500])
                 = Some (advance 1500 (handlePredict w2))).
  { rewrite (runAll_step _ _ _ _ Hr3), (runAll_step _ _ _ _ Hr4). reflexivity. }
  assert (Hno : ~ In Timeout [Elapse 1500]) by (simpl; intuition discriminate).
  destruct (submitted_stays_pending w2 (advance 1500 (handlePredict w2))
              [Elapse 1500] Hw2 Hs2 Hall Hno Hrun) as [Hp _].
  assert (Hdue : now w2 + 1500 <= now (advance 1500 (handlePredict w2))).
  { rewrite (handlePredict_pass w2 Hall). simpl. lia. }
  pose proof (pending_fires _ _ Hp Hdue) as Hr5. simpl captured in Hr5.
  assert (Hres : forall x,
            prediction (result (component
                                  (timeoutCallback (formData (component w2)) x)))
            = Some (if (140 <? i) || (200 <? j) then positive else negative)).
  { intros x. rewrite timeoutCallback_result, Hg, Hb.
    destruct (gridPoint_printed Kglucose i Hi) as (Hng & _).
    destruct (gridPoint_printed Kbmi j Hj) as (Hnb & _).
    fold g in Hng. fold b in Hnb. rewrite Hng, Hnb.
    destruct thresholdCheck_all as [HG HB].
    pose proof (forallb_upto _ _ i HG Hi) as Hgi.
    pose proof (forallb_upto _ _ j HB Hj) as Hbj.
    unfold glucoseCheck in Hgi. unfold bmiCheck in Hbj.
    apply Bool.eqb_prop in Hgi, Hbj. fold g in Hgi. fold b in Hbj.
    rewrite Hgi, Hbj.
    destruct ((140 <? i) || (200 <? j)); reflexivity. }
  eexists. split.
  - rewrite (runAll_step _ _ _ _ Hr1), (runAll_step _ _ _ _ Hr2),
      (runAll_step _ _ _ _ Hr3), (runAll_step _ _ _ _ Hr4),
      (runAll_step _ _ _ _ Hr5).
    reflexivity.
  - apply Hres.
Qed.

(** Glucose at 140 and bmi at 30.0, the last positions below the
    thresholds. *)
Lemma prediction_at_slider_positions_witness :
  exists w',
    runAll (showing (sample "" ""))
           [SliderChange Kglucose [gridPoint Kglucose 140];
            SliderChange Kbmi [gridPoint Kbmi 200];
            Click; Elapse 1500; Timeout]
    = Some w'
    /\ prediction (result (component w')) = Some negative.
Proof.
  apply (prediction_at_slider_positions (showing (sample "" "")) 140 200).
  - apply showing_reachable.
  - reflexivity.
  - intros k Hg Hb.
    destruct k; try (exfalso; apply Hg; reflexivity);
      try (exfalso; apply Hb; reflexivity);
      (split; [vm_compute; discriminate | vm_compute; reflexivity]).
  - lia.
  - lia.
Defined.

(* ===================================================================== *)
(** ** Further properties: what validation never accepts *)
(* ===================================================================== *)

Lemma punctuation_facts (c : ascii) :
  punctuation c = true ->
  JS.isStrWhiteSpaceChar c = false
  /\ JS.isDecimalDigit c = false
  /\ JS.digitValue 16 c = None
  /\ JS.digitValue 8 c = None
  /\ JS.digitValue 2 c = None
  /\ (JS.code c =? 48) = false
  /\ (JS.code c =? 43) = false
  /\ (JS.code c =? 45) = false
  /\ (JS.code c =? 46) = false
  /\ (JS.code c =? 101) || (JS.code c =? 69) = false
  /\ (JS.code c =? 120) || (JS.code c =? 88) = false
  /\ (JS.code c =? 111) || (JS.code c =? 79) = false
  /\ (JS.code c =? 98) || (JS.code c =? 66) = false
  /\ forallb (fun x => negb (Ascii.eqb c x)) JS.Infinity_chars = true.
Proof. by_character c. Qed.

Section Punctuation.

Variable c : ascii.
Hypothesis Hc : punctuation c = true.

Lemma In_dropWhile_space (l : list ascii) :
  In c l -> In c (JS.dropWhile JS.isStrWhiteSpaceChar l).
Proof.
  destruct (punctuation_facts c Hc) as (Hws & _).
  induction l as [|a l IH]; simpl; [tauto|].
  intros [-> | Hin].
  - rewrite Hws. left. reflexivity.
  - destruct (JS.isStrWhiteSpaceChar a); [apply IH, Hin | right; exact Hin].
Qed.

Lemma In_trim (l : list ascii) : In c l -> In c (JS.trim l).
Proof.
  intros Hin. unfold JS.trim. apply -> in_rev.
  apply In_dropWhile_space. apply -> in_rev. apply In_dropWhile_space, Hin.
Qed.

Lemma readRadix_punctuation (radix : Z) (l : list ascii) :
  JS.digitValue radix c = None ->
  In c l -> forall acc, JS.readRadix radix l acc = None.
Proof.
  intros Hv. induction l as [|a l IH]; simpl; [tauto|].
  intros [-> | Hin] acc.
  - rewrite Hv. reflexivity.
  - destruct (JS.digitValue radix a); [apply IH, Hin | reflexivity].
Qed.

Lemma readDigits_punctuation (l : list ascii) :
  In c l ->
  forall acc cnt,
    exists v n rest,
      JS.readDigits l acc cnt = (v, n, rest) /\ In c rest.
Proof.
  destruct (punctuation_facts c Hc) as (_ & Hd & _).
  induction l as [|a l IH]; [intros []|].
  intros Hin acc cnt. rewrite readDigits_cons.
  destruct (JS.isDecimalDigit a) eqn:Ha.
  - destruct Hin as [-> | Hin]; [congruence|]. apply IH, Hin.
  - exists acc, cnt, (a :: l). split; [reflexivity | exact Hin].
Qed.

Lemma readExponent_punctuation (l : list ascii) :
  In c l -> JS.readExponent l = None.
Proof.
  destruct (punctuation_facts c Hc)
    as (_ & _ & _ & _ & _ & _ & Hplus & Hminus & _ & He & _).
  intros Hin. destruct l as [|a l]; [destruct Hin|].
  unfold JS.readExponent.
  destruct ((JS.code a =? 101) || (JS.code a =? 69)) eqn:Ha; [|reflexivity].
  assert (Hl : In c l) by (destruct Hin as [-> | H]; [congruence | exact H]).
  assert (Hl'' : forall (neg : bool) l'',
            In c l'' ->
            match JS.readDigits l'' 0 0 with
            | (v, n, []) => if 0 <? n then Some (if neg then - v else v) else None
            | _ => @None Z
            end = None).
  { intros neg l'' Hin''.
    destruct (readDigits_punctuation l'' Hin'' 0 0) as (v & n & rest & -> & Hrest).
    destruct rest; [destruct Hrest | reflexivity]. }
  destruct l as [|s r]; [destruct Hl|].
  destruct (JS.code s =? 43) eqn:Hs43.
  - assert (Hr : In c r) by (destruct Hl as [-> | H]; [congruence | exact H]).
    exact (Hl'' false r Hr).
  - destruct (JS.code s =? 45) eqn:Hs45.
    + assert (Hr : In c r) by (destruct Hl as [-> | H]; [congruence | exact H]).
      exact (Hl'' true r Hr).
    + exact (Hl'' false (s :: r) Hl).
Qed.

Lemma readUnsignedDecimal_punctuation (sign : bool) (l : list ascii) :
  In c l -> JS.readUnsignedDecimal sign l = JS.NaN.
Proof.
  destruct (punctuation_facts c Hc)
    as (_ & _ & _ & _ & _ & _ & _ & _ & Hpoint & _).
  intros Hin. unfold JS.readUnsignedDecimal.
  destruct (readDigits_punctuation l Hin 0 0) as (ip & ni & l1 & -> & Hl1).
  destruct l1 as [|a r]; [destruct Hl1|].
  destruct (JS.code a =? 46) eqn:Ha.
  - assert (Hr : In c r) by (destruct Hl1 as [-> | H]; [congruence | exact H]).
    destruct (readDigits_punctuation r Hr ip 0) as (m & nf & l2 & -> & Hl2).
    rewrite (readExponent_punctuation l2 Hl2).
    destruct (0 <? ni + nf); reflexivity.
  - rewrite (readExponent_punctuation (a :: r) Hl1).
    destruct (0 <? ni + 0); reflexivity.
Qed.

Lemma readStrUnsigned_punctuation (sign : bool) (l : list ascii) :
  In c l -> JS.readStrUnsigned sign l = JS.NaN.
Proof.
  destruct (punctuation_facts c Hc)
    as (_ & _ & _ & _ & _ & _ & _ & _ & _ & _ & _ & _ & _ & Hinf).
  intros Hin. unfold JS.readStrUnsigned, JS.list_ascii_eqb.
  destruct (String.eqb _ _) eqn:Heq;
    [|apply readUnsignedDecimal_punctuation, Hin].
  apply String.eqb_eq in Heq.
  apply (f_equal list_ascii_of_string) in Heq.
  rewrite !list_ascii_of_string_of_list_ascii in Heq. subst l.
  rewrite forallb_forall in Hinf. specialize (Hinf c Hin).
  rewrite Ascii.eqb_refl in Hinf. discriminate.
Qed.

Lemma readNonDecimal_punctuation (l : list ascii) :
  In c l ->
  JS.readNonDecimal l = None \/ JS.readNonDecimal l = Some JS.NaN.
Proof.
  destruct (punctuation_facts c Hc)
    as (_ & _ & H16 & H8 & H2 & H48 & _ & _ & _ & _ & Hx & Ho & Hb & _).
  intros Hin. destruct l as [|z [|p [|d ds]]]; try (left; reflexivity).
  unfold JS.readNonDecimal.
  destruct (JS.code z =? 48) eqn:Hz; [|left; reflexivity].
  assert (Hin' : c = p \/ In c (d :: ds)).
  { destruct Hin as [-> | [-> | H]]; [congruence | left; reflexivity | right; exact H]. }
  destruct ((JS.code p =? 120) || (JS.code p =? 88)) eqn:Hpx.
  { destruct Hin' as [-> | H]; [congruence|].
    rewrite (readRadix_punctuation 16 _ H16 H). right. reflexivity. }
  destruct ((JS.code p =? 111) || (JS.code p =? 79)) eqn:Hpo.
  { destruct Hin' as [-> | H]; [congruence|].
    rewrite (readRadix_punctuation 8 _ H8 H). right. reflexivity. }
  destruct ((JS.code p =? 98) || (JS.code p =? 66)) eqn:Hpb.
  { destruct Hin' as [-> | H]; [congruence|].
    rewrite (readRadix_punctuation 2 _ H2 H). right. reflexivity. }
  left. reflexivity.
Qed.

Lemma Number_punctuation (s : string) :
  In c (list_ascii_of_string s) -> JS.Number s = JS.NaN.
Proof.
  destruct (punctuation_facts c Hc)
    as (_ & _ & _ & _ & _ & _ & Hplus & Hminus & _).
  intros Hin. apply In_trim in Hin. unfold JS.Number.
  destruct (JS.trim (list_ascii_of_string s)) as [|a r]; [destruct Hin|].
  destruct (readNonDecimal_punctuation (a :: r) Hin) as [-> | ->];
    [|reflexivity].
  destruct (JS.code a =? 43) eqn:Ha43.
  - apply readStrUnsigned_punctuation.
    destruct Hin as [-> | H]; [congruence | exact H].
  - destruct (JS.code a =? 45) eqn:Ha45.
    + apply readStrUnsigned_punctuation.
      destruct Hin as [-> | H]; [congruence | exact H].
    + apply readStrUnsigned_punctuation, Hin.
Qed.

End Punctuation.

(** X14. A field that contains any character other than letters, digits,
    the point, the two signs and white space, such as a decimal comma, a
    thousands separator or a unit sign, never validates: [Number] of it is
    NaN, the form is rejected, and the submission only raises a
    notification. *)
Theorem punctuation_is_rejected (w : World) (field : Key) (c : ascii) :
  punctuation c = true ->
  In c (list_ascii_of_string (get (formData (component w)) field)) ->
  JS.Number (get (formData (component w)) field) = JS.NaN
  /\ fst (validateForm w) = false
  /\ exists k, handlePredict w = toast (validationToast k) w.
Proof.
  intros Hc Hin.
  pose proof (Number_punctuation c Hc _ Hin) as Hnan.
  assert (Hf : fst (validateForm w) = false).
  { destruct (fst (validateForm w)) eqn:Hv; [|reflexivity].
    apply validateForm_true in Hv. destruct (Hv field) as [_ Hn].
    rewrite Hnan in Hn. discriminate. }
  split; [exact Hnan|]. split; [exact Hf|].
  apply handlePredict_fail, Hf.
Qed.

(** A decimal comma. *)
Lemma punctuation_is_rejected_witness :
  JS.Number (get (formData (component (showing (sample "5,5" "25")))) Kglucose)
  = JS.NaN
  /\ fst (validateForm (showing (sample "5,5" "25"))) = false
  /\ exists k,
       handlePredict (showing (sample "5,5" "25"))
       = toast (validationToast k) (showing (sample "5,5" "25")).
Proof.
  apply (punctuation_is_rejected (showing (sample "5,5" "25")) Kglucose ","%char).
  - reflexivity.
  - simpl. tauto.
Defined.

(* ===================================================================== *)
(** ** The form as the page delivers it *)
(* ===================================================================== *)

Example numberInputValue_samples :
  map numberInputValue
      ["150"; "26.5"; "-1.5e3"; ".5"; "1E+2"; "Infinity"; "-Infinity"; "1e999";
       "12a"; "5."; "+5"; " 5"; "0x1F"; "1e"; "-"; ""]
  = ["150"; "26.5"; "-1.5e3"; ".5"; "1E+2"; ""; ""; "";
     ""; ""; ""; ""; ""; ""; ""; ""].
Proof. vm_compute. reflexivity. Qed.








(** The page's worlds are among the worlds of the event loop. *)
Lemma pageReachable_reachable (w : World) : pageReachable w -> reachable w.
Proof.
  induction 1 as [|w pev w' _ IH Hrun]; [apply reachable_initial|].
  unfold runPageEvent in Hrun.
  destruct (deliver pev) as [ev|]; [|discriminate].
  exact (reachable_run w ev w' IH Hrun).
Qed.



